(** * DNS name splitting of ot-br-posix ([src/common/dns_utils.cpp])

    A shallow embedding of [SplitFullDnsName], [SplitSubtypes] and the three
    shape-specific extractors, together with the members of [std::string]
    they call.  [size_t] is a 64-bit unsigned integer and [int] a 32-bit
    signed one (LP64); both are carried as [Z] with the wrap-around written
    out.  A call that can throw or abort returns an [outcome]: [substr]
    throws [std::out_of_range], [assert] aborts.  Running out of memory is
    not modelled; a name is taken to be a string that can still grow by the
    '.' the code may append ([fits]). *)

From Stdlib Require Import ZArith String Ascii List Bool Lia.
Import ListNotations.

Open Scope string_scope.
Open Scope Z_scope.

(** ** Outcomes: a value, or the way the call left abnormally *)

Inductive failure : Type :=
| OutOfRange       (* std::out_of_range, thrown by substr when pos > size() *)
| AssertionFailed. (* assert(...) aborted the program *)

Inductive outcome (A : Type) : Type :=
| Returns (a : A)
| Fails (f : failure).

Arguments Returns {A} a.
Arguments Fails {A} f.

Definition bind {A B : Type} (m : outcome A) (k : A -> outcome B) : outcome B :=
  match m with
  | Returns a => k a
  | Fails f => Fails f
  end.

Notation "x <- m ;; k" := (bind m (fun x => k))
  (at level 61, m at next level, right associativity).

Definition assert (b : bool) : outcome unit :=
  if b then Returns tt else Fails AssertionFailed.

(** ** Machine integers *)

Module Size.
(** [size_t]: 64 bits, unsigned. *)
Definition modulus : Z := 18446744073709551616.
Definition npos : Z := modulus - 1.
Definition wrap (x : Z) : Z := x mod modulus.
End Size.

Module Int.
(** [int]: 32 bits, two's complement. *)
Definition max : Z := 2147483647.
Definition modulus : Z := 4294967296.
(** Conversion of an integer of another type to [int]. *)
Definition of_Z (x : Z) : Z :=
  let y := x mod modulus in
  if y <=? max then y else y - modulus.
End Int.

(** ** Strings, by character position *)

Module Str.

Fixpoint take (n : nat) (s : string) : string :=
  match n, s with
  | S n', String c s' => String c (take n' s')
  | _, _ => EmptyString
  end.

Fixpoint drop (n : nat) (s : string) : string :=
  match n, s with
  | S n', String _ s' => drop n' s'
  | _, _ => s
  end.

(** Position of the first [c] in [s]. *)
Fixpoint index_of (c : ascii) (s : string) : option nat :=
  match s with
  | EmptyString => None
  | String a s' =>
      if Ascii.eqb a c then Some O else option_map S (index_of c s')
  end.

(** Position of the last [c] in [s]. *)
Fixpoint last_index_of (c : ascii) (s : string) : option nat :=
  match s with
  | EmptyString => None
  | String a s' =>
      match last_index_of c s' with
      | Some i => Some (S i)
      | None => if Ascii.eqb a c then Some O else None
      end
  end.

(** Greatest position at which [pat] occurs in [s]. *)
Fixpoint last_occurrence (pat s : string) : option nat :=
  match s with
  | EmptyString => if prefix pat s then Some O else None
  | String _ s' =>
      match last_occurrence pat s' with
      | Some i => Some (S i)
      | None => if prefix pat s then Some O else None
      end
  end.

Fixpoint count (c : ascii) (s : string) : nat :=
  match s with
  | EmptyString => O
  | String a s' => if Ascii.eqb a c then S (count c s') else count c s'
  end.

(** Last character, if any. *)
Fixpoint last (s : string) : option ascii :=
  match s with
  | EmptyString => None
  | String a EmptyString => Some a
  | String _ s' => last s'
  end.

(** [pat] occurs in [s] at position [i]. *)
Definition occurs_at (pat s : string) (i : nat) : Prop :=
  exists pre post, s = pre ++ pat ++ post /\ String.length pre = i.

(** The segments of [s] between its occurrences of [c], in order: one
    more than there are occurrences. *)
Fixpoint split (c : ascii) (s : string) : list string :=
  match s with
  | EmptyString => [""]
  | String a s' =>
      if Ascii.eqb a c then "" :: split c s'
      else match split c s' with
           | seg :: rest => String a seg :: rest
           | [] => [String a ""]
           end
  end.

(** [n] copies of [c]. *)
Fixpoint replicate (n : nat) (c : ascii) : string :=
  match n with
  | O => EmptyString
  | S n' => String c (replicate n' c)
  end.

End Str.

(** ** The members of [std::string] the source calls

    Positions and counts are [size_t] values; [npos] stands for "not
    found" and for "to the end". *)

Module StdString.
Import Size.

Definition size (s : string) : Z := Z.of_nat (String.length s).

Definition empty (s : string) : bool :=
  match s with EmptyString => true | _ => false end.

Definition position (o : option nat) : Z :=
  match o with
  | Some i => Z.of_nat i
  | None => npos
  end.

(** [s.substr(pos, count)]: throws when [pos > size()], otherwise the
    characters [pos .. min(pos + count, size())). *)
Definition substr (s : string) (pos count : Z) : outcome string :=
  if size s <? pos then Fails OutOfRange
  else Returns (Str.take (Z.to_nat (Z.min count (size s - pos)))
                         (Str.drop (Z.to_nat pos) s)).

(** [s.find_first_of(c, pos)]: first position [>= pos] holding [c]. *)
Definition find_first_of (s : string) (c : ascii) (pos : Z) : Z :=
  if size s <=? pos then npos
  else position (option_map (fun i => Z.to_nat pos + i)%nat
                            (Str.index_of c (Str.drop (Z.to_nat pos) s))).

(** [s.find_last_of(c, pos)]: last position [<= pos] holding [c]. *)
Definition find_last_of (s : string) (c : ascii) (pos : Z) : Z :=
  if size s =? 0 then npos
  else position (Str.last_index_of c
                   (Str.take (Z.to_nat (Z.min pos (size s - 1) + 1)) s)).

(** [s.rfind(pat)]: greatest position at which [pat] occurs. *)
Definition rfind (s pat : string) : Z :=
  position (Str.last_occurrence pat s).

(** [std::count(s.begin(), s.end(), c)], a [ptrdiff_t]. *)
Definition count (s : string) (c : ascii) : Z := Z.of_nat (Str.count c s).

(** A string the implementation can hold.  [max_size()] differs between
    implementations; what holds on all of them, and what is used here, is
    that it lies below [npos]. *)
Definition fits (s : string) : Prop := size s < npos.

End StdString.

Import Size StdString.

(** ** [DnsNameInfo]

    The struct is declared in common/dns_utils.hpp, which is not among the
    sources; these are the members the source assigns, every one of them
    empty in a fresh value. *)

Record DnsNameInfo : Type := mkDnsNameInfo {
  mInstanceName : string;
  mServiceName : string;
  mHostName : string;
  mSubtypes : list string;
  mDomain : string
}.

(** Modelled from the spec: the member predicates of [DnsNameInfo], declared
    in common/dns_utils.hpp, which is not among the sources.  A field is
    "set" when it is not the empty string. *)
Definition IsHost (n : DnsNameInfo) : bool :=
  negb (empty (mHostName n)).

Definition IsService (n : DnsNameInfo) : bool :=
  negb (empty (mServiceName n)) && empty (mInstanceName n).

Definition IsServiceInstance (n : DnsNameInfo) : bool :=
  negb (empty (mServiceName n)) && negb (empty (mInstanceName n)).

(** ** [NameEndsWithDot] *)

Definition NameEndsWithDot (aName : string) : bool :=
  negb (empty aName) &&
  match Str.last aName with
  | Some c => Ascii.eqb c "."
  | None => false
  end.

(** ** [SplitSubtypes] *)

(** The body of the [for] loop, run [n] times: [n] is the value of the
    counter [subtypesNumber] when the loop is entered ([0] when that is not
    positive). *)
Fixpoint SplitSubtypes_loop (n : nat) (aSubtypes : string) (prevCommaPos : Z)
    (aSubtypesList : list string) : outcome (list string) :=
  match n with
  | O => Returns aSubtypesList
  | S n' =>
      let nextCommaPos := find_first_of aSubtypes "," (wrap (prevCommaPos + 1)) in
      if nextCommaPos =? npos then
        sub <- substr aSubtypes (wrap (prevCommaPos + 1)) npos ;;
        SplitSubtypes_loop n' aSubtypes prevCommaPos (aSubtypesList ++ [sub])
      else
        sub <- substr aSubtypes (wrap (prevCommaPos + 1))
                 (wrap (wrap (nextCommaPos - prevCommaPos) - 1)) ;;
        SplitSubtypes_loop n' aSubtypes nextCommaPos (aSubtypesList ++ [sub])
  end.

Definition SplitSubtypes (aSubtypes : string) (aSubtypesList : list string)
    : outcome (list string) :=
  let prevCommaPos := find_first_of aSubtypes "," 0 in
  let subtypesNumber := Int.of_Z (count aSubtypes ",") in
  SplitSubtypes_loop (Z.to_nat subtypesNumber) aSubtypes prevCommaPos aSubtypesList.

(** ** [SplitFullDnsName] *)

(** Lines 45-50: the working copy, dot-terminated. *)
Definition normalized (aName : string) : string :=
  if negb (NameEndsWithDot aName) then aName ++ "." else aName.

(** Lines 52-57: where the name is split. *)
Definition transportPosition (fullName : string) : Z :=
  let transportPos := rfind fullName "._udp" in
  if transportPos =? npos then rfind fullName "._tcp" else transportPos.

(** Lines 59-98: the two branches, before the domain is dot-terminated. *)
Definition splitBranches (fullName : string) : outcome DnsNameInfo :=
  let transportPos := transportPosition fullName in
  if transportPos =? npos then
    let dotPos := find_first_of fullName "." 0 in
    _ <- assert (negb (dotPos =? npos)) ;;
    host <- substr fullName 0 dotPos ;;
    domain <- substr fullName (wrap (dotPos + 1))
                (wrap (wrap (size fullName - dotPos) - 1)) ;;
    Returns {| mInstanceName := ""; mServiceName := ""; mHostName := host;
               mSubtypes := []; mDomain := domain |}
  else
    let dotPos :=
      if 0 <? transportPos
      then find_last_of fullName "." (wrap (transportPos - 1))
      else npos in
    let domainPos := find_first_of fullName "." (wrap (transportPos + 1)) in
    domain <- substr fullName (wrap (domainPos + 1)) npos ;;
    let commaPos := find_first_of fullName "," 0 in
    subtypes <-
      (if negb (commaPos =? npos) then
         fragment <- substr fullName commaPos (wrap (domainPos - commaPos)) ;;
         SplitSubtypes fragment []
       else Returns []) ;;
    if dotPos =? npos then
      service <- substr fullName 0 (wrap (transportPos + 5)) ;;
      Returns {| mInstanceName := ""; mServiceName := service; mHostName := "";
                 mSubtypes := subtypes; mDomain := domain |}
    else
      instance <- substr fullName 0 dotPos ;;
      service <- substr fullName (wrap (dotPos + 1))
                   (wrap (wrap (transportPos + 4) - dotPos)) ;;
      Returns {| mInstanceName := instance; mServiceName := service;
                 mHostName := ""; mSubtypes := subtypes; mDomain := domain |}.

(** Lines 100-103. *)
Definition terminateDomain (nameInfo : DnsNameInfo) : DnsNameInfo :=
  if negb (NameEndsWithDot (mDomain nameInfo))
  then {| mInstanceName := mInstanceName nameInfo;
          mServiceName := mServiceName nameInfo;
          mHostName := mHostName nameInfo;
          mSubtypes := mSubtypes nameInfo;
          mDomain := mDomain nameInfo ++ "." |}
  else nameInfo.

Definition SplitFullDnsName (aName : string) : outcome DnsNameInfo :=
  let fullName := normalized aName in
  nameInfo <- splitBranches fullName ;;
  Returns (terminateDomain nameInfo).

(** ** The shape-specific extractors

    The output references are passed in with their current values and come
    back with their final ones, next to the returned [otbrError].
    [VerifyOrExit(cond, action)] runs [action] and jumps to [exit] when
    [cond] is false. *)

(** Modelled from the spec: [otbrError], declared in a header that is not
    among the sources; the two enumerators the source names, success and
    the one error kind of the spec. *)
Inductive otbrError : Type :=
| OTBR_ERROR_NONE
| OTBR_ERROR_INVALID_ARGS.

Definition SplitFullServiceInstanceName (aFullName : string)
    (aInstanceName aType : string) (aSubtypes : list string) (aDomain : string)
    : outcome (otbrError * (string * string * list string * string)) :=
  nameInfo <- SplitFullDnsName aFullName ;;
  if negb (IsServiceInstance nameInfo)
  then Returns (OTBR_ERROR_INVALID_ARGS, (aInstanceName, aType, aSubtypes, aDomain))
  else Returns (OTBR_ERROR_NONE,
                (mInstanceName nameInfo, mServiceName nameInfo,
                 mSubtypes nameInfo, mDomain nameInfo)).

Definition SplitFullServiceName (aFullName : string) (aType aDomain : string)
    : outcome (otbrError * (string * string)) :=
  nameInfo <- SplitFullDnsName aFullName ;;
  if negb (IsService nameInfo)
  then Returns (OTBR_ERROR_INVALID_ARGS, (aType, aDomain))
  else Returns (OTBR_ERROR_NONE, (mServiceName nameInfo, mDomain nameInfo)).

Definition SplitFullHostName (aFullName : string) (aHostName aDomain : string)
    : outcome (otbrError * (string * string)) :=
  nameInfo <- SplitFullDnsName aFullName ;;
  if negb (IsHost nameInfo)
  then Returns (OTBR_ERROR_INVALID_ARGS, (aHostName, aDomain))
  else Returns (OTBR_ERROR_NONE, (mHostName nameInfo, mDomain nameInfo)).

(** ** Names put together from their parts *)

Module Names.

(** The subtypes as they stand in a name: each one behind a ','. *)
Definition joinSubtypes (subtypes : list string) : string :=
  fold_right (fun subtype rest => "," ++ subtype ++ rest) EmptyString subtypes.

End Names.

(** * Properties *)

(** ** Strings *)

Module StrFacts.
Import Str.

Lemma length_app (s t : string) :
  String.length (s ++ t) = (String.length s + String.length t)%nat.
Proof. induction s as [|a s IH]; simpl; [reflexivity | now rewrite IH]. Qed.

Lemma take_0 (s : string) : take 0 s = "".
Proof. now destruct s. Qed.

Lemma drop_0 (s : string) : drop 0 s = s.
Proof. now destruct s. Qed.

Lemma take_length (n : nat) (s : string) :
  String.length (take n s) = Nat.min n (String.length s).
Proof.
  revert n; induction s as [|a s IH]; intros [|n]; simpl; try reflexivity.
  now rewrite IH.
Qed.

Lemma drop_length (n : nat) (s : string) :
  String.length (drop n s) = (String.length s - n)%nat.
Proof.
  revert n; induction s as [|a s IH]; intros [|n]; simpl; try reflexivity.
  apply IH.
Qed.

Lemma take_drop (n : nat) (s : string) : take n s ++ drop n s = s.
Proof.
  revert n; induction s as [|a s IH]; intros [|n]; simpl; try reflexivity.
  now rewrite IH.
Qed.

Lemma take_all (n : nat) (s : string) :
  (String.length s <= n)%nat -> take n s = s.
Proof.
  revert n; induction s as [|a s IH]; intros [|n] H; simpl in *;
    try reflexivity; try lia.
  rewrite IH; [reflexivity | lia].
Qed.

Lemma drop_all (n : nat) (s : string) :
  (String.length s <= n)%nat -> drop n s = "".
Proof.
  revert n; induction s as [|a s IH]; intros [|n] H; simpl in *;
    try reflexivity; try lia.
  apply IH; lia.
Qed.

Lemma drop_drop (m n : nat) (s : string) : drop m (drop n s) = drop (n + m) s.
Proof.
  revert n; induction s as [|a s IH]; intros [|n]; simpl.
  - now destruct m.
  - now destruct m.
  - reflexivity.
  - apply IH.
Qed.

Lemma take_app (n : nat) (s t : string) :
  (n <= String.length s)%nat -> take n (s ++ t) = take n s.
Proof.
  revert n; induction s as [|a s IH]; intros [|n] H; simpl in *;
    rewrite ?take_0; try reflexivity; try lia.
  rewrite IH; [reflexivity | lia].
Qed.

Lemma drop_app (n : nat) (s t : string) :
  (n <= String.length s)%nat -> drop n (s ++ t) = drop n s ++ t.
Proof.
  revert n; induction s as [|a s IH]; intros [|n] H; simpl in *;
    rewrite ?drop_0; try reflexivity; try lia.
  apply IH; lia.
Qed.

Lemma drop_app_length (s t : string) : drop (String.length s) (s ++ t) = t.
Proof.
  induction s as [|a s IH]; simpl; [now rewrite ?drop_0 | exact IH].
Qed.

Lemma substring_take_drop (n m : nat) (s : string) :
  substring n m s = take m (drop n s).
Proof.
  revert n m; induction s as [|a s IH]; intros [|n] [|m]; simpl;
    try reflexivity.
  - now rewrite IH, drop_0.
  - apply IH.
  - apply IH.
Qed.

Lemma get_take (e t : nat) (s : string) :
  (e < t)%nat -> get e (take t s) = get e s.
Proof.
  revert e t; induction s as [|a s IH]; intros e [|t] H; simpl;
    try reflexivity; try lia.
  destruct e as [|e]; [reflexivity | apply IH; lia].
Qed.

Lemma get_drop_add (n e : nat) (s : string) :
  get e (drop n s) = get (n + e) s.
Proof.
  revert n; induction s as [|a s IH]; intros [|n]; simpl; try reflexivity.
  apply IH.
Qed.

(** *** Counting and first position *)

Lemma get_count_pos (c : ascii) (s : string) (e : nat) :
  get e s = Some c -> (0 < count c s)%nat.
Proof.
  revert e; induction s as [|a s IH]; intros e; simpl; [discriminate|].
  destruct e as [|e].
  - intros [= ->]. rewrite Ascii.eqb_refl. lia.
  - intros H. apply IH in H. destruct (Ascii.eqb a c); lia.
Qed.

Lemma count_zero_intro (c : ascii) (s : string) :
  (forall e, (e < String.length s)%nat -> get e s <> Some c) ->
  count c s = 0%nat.
Proof.
  induction s as [|a s IH]; simpl; intros H; [reflexivity|].
  destruct (Ascii.eqb a c) eqn:E.
  - apply Ascii.eqb_eq in E; subst a. now destruct (H 0%nat ltac:(lia)).
  - apply IH. intros e He. apply (H (S e)). lia.
Qed.


Lemma count_app (c : ascii) (s t : string) :
  count c (s ++ t) = (count c s + count c t)%nat.
Proof.
  induction s as [|a s IH]; simpl; [reflexivity|].
  destruct (Ascii.eqb a c); simpl; now rewrite IH.
Qed.

Lemma count_replicate (n : nat) (c : ascii) : count c (replicate n c) = n.
Proof.
  induction n as [|n IH]; simpl; [reflexivity|].
  now rewrite Ascii.eqb_refl, IH.
Qed.

Lemma index_of_none (c : ascii) (s : string) :
  index_of c s = None <-> count c s = 0%nat.
Proof.
  induction s as [|a s IH]; simpl; [tauto|].
  destruct (Ascii.eqb a c); [split; discriminate|].
  destruct (index_of c s); simpl; split; intros H;
    try discriminate; try reflexivity; try (apply IH; assumption).
  apply IH in H; discriminate.
Qed.

Lemma index_of_some (c : ascii) (s : string) (i : nat) :
  index_of c s = Some i ->
  (i < String.length s)%nat /\
  count c (take i s) = 0%nat /\
  drop i s = String c (drop (S i) s).
Proof.
  revert i; induction s as [|a s IH]; simpl; intros i H; [discriminate|].
  destruct (Ascii.eqb a c) eqn:E.
  - injection H as <-. apply Ascii.eqb_eq in E; subst a.
    simpl. rewrite ?drop_0. repeat split; lia.
  - destruct (index_of c s) as [j|]; [|discriminate].
    injection H as <-. destruct (IH j eq_refl) as (H1 & H2 & H3).
    simpl. rewrite E. repeat split; try lia; assumption.
Qed.

Lemma index_of_app_l (c : ascii) (s t : string) (i : nat) :
  index_of c s = Some i -> index_of c (s ++ t) = Some i.
Proof.
  revert i; induction s as [|a s IH]; simpl; intros i H; [discriminate|].
  destruct (Ascii.eqb a c); [assumption|].
  destruct (index_of c s) as [j|]; [|discriminate].
  now rewrite (IH j eq_refl).
Qed.

Lemma index_of_app_r (c : ascii) (s t : string) :
  index_of c s = None ->
  index_of c (s ++ t) =
  option_map (fun i => String.length s + i)%nat (index_of c t).
Proof.
  induction s as [|a s IH]; simpl; intros H.
  - now destruct (index_of c t).
  - destruct (Ascii.eqb a c); [discriminate|].
    destruct (index_of c s); [discriminate|].
    rewrite (IH eq_refl). now destruct (index_of c t).
Qed.

Lemma count_drop_pos (c : ascii) (s : string) (i m : nat) :
  index_of c s = Some i -> (m <= i)%nat -> (0 < count c (drop m s))%nat.
Proof.
  intros H Hm. destruct (index_of_some _ _ _ H) as (Hlt & _ & Hd).
  replace i with (m + (i - m))%nat in Hd at 1 by lia.
  rewrite <- drop_drop in Hd.
  rewrite <- (take_drop (i - m) (drop m s)), count_app, Hd. simpl.
  rewrite Ascii.eqb_refl. lia.
Qed.

(** *** Last character *)

Lemma last_app_char (s : string) (c : ascii) :
  last (s ++ String c "") = Some c.
Proof.
  induction s as [|a s IH]; simpl; [reflexivity|].
  destruct (s ++ String c "") eqn:E; [now destruct s | exact IH].
Qed.

Lemma last_some (s : string) (c : ascii) :
  last s = Some c -> exists p, s = p ++ String c "".
Proof.
  induction s as [|a s IH]; simpl; [discriminate|].
  destruct s as [|b s].
  - intros [= ->]. now exists "".
  - intros H. destruct (IH H) as [p ->]. now exists (String a p).
Qed.

Lemma last_drop (n : nat) (s : string) :
  (n < String.length s)%nat -> last (drop n s) = last s.
Proof.
  revert n; induction s as [|a s IH]; intros [|n] H; simpl in *;
    try reflexivity; try lia.
  rewrite IH by lia. destruct s; [simpl in H; lia | reflexivity].
Qed.

Lemma last_count_pos (s : string) (c : ascii) :
  last s = Some c -> (0 < count c s)%nat.
Proof.
  intros H. destruct (last_some _ _ H) as [p ->].
  rewrite count_app. simpl. rewrite Ascii.eqb_refl. lia.
Qed.

(** *** Last position of a character *)

Lemma last_index_of_none (c : ascii) (s : string) :
  last_index_of c s = None <-> count c s = 0%nat.
Proof.
  induction s as [|a s IH]; simpl; [tauto|].
  destruct (last_index_of c s) as [j|].
  - split; [discriminate|]. intros H.
    destruct (Ascii.eqb a c); [discriminate|].
    apply IH in H; discriminate.
  - destruct (Ascii.eqb a c); [split; discriminate|].
    split; intros _; [now apply IH | reflexivity].
Qed.

Lemma last_index_of_some (c : ascii) (s : string) (i : nat) :
  last_index_of c s = Some i ->
  (i < String.length s)%nat /\
  get i s = Some c /\
  count c (drop (S i) s) = 0%nat.
Proof.
  revert i; induction s as [|a s IH]; simpl; intros i H; [discriminate|].
  destruct (last_index_of c s) as [j|] eqn:E.
  - injection H as <-. destruct (IH j eq_refl) as (H1 & H2 & H3).
    repeat split; try lia; assumption.
  - destruct (Ascii.eqb a c) eqn:Ea; [|discriminate].
    injection H as <-. apply Ascii.eqb_eq in Ea; subst a.
    rewrite ?drop_0. apply last_index_of_none in E.
    repeat split; try lia; assumption.
Qed.

(** *** Occurrences of a pattern *)

Lemma prefix_iff (p s : string) :
  prefix p s = true <-> exists post, s = p ++ post.
Proof.
  revert s; induction p as [|a p IH]; intros s.
  - destruct s; simpl; split; eauto.
  - destruct s as [|b s]; simpl; [split; [discriminate | intros [? [=]]]|].
    destruct (ascii_dec a b) as [->|N].
    + rewrite IH. split; intros [post H]; exists post; congruence.
    + split; [discriminate | intros [post H]; congruence].
Qed.

Lemma occurs_at_iff (pat s : string) (i : nat) :
  occurs_at pat s i <->
  (i <= String.length s)%nat /\ prefix pat (drop i s) = true.
Proof.
  split.
  - intros (pre & post & -> & <-). split.
    + rewrite length_app. lia.
    + rewrite drop_app_length. apply prefix_iff. eauto.
  - intros [Hi H]. apply prefix_iff in H as [post H].
    exists (take i s), post. split.
    + now rewrite <- H, take_drop.
    + rewrite take_length. lia.
Qed.

Lemma occurs_at_bound (pat s : string) (i : nat) :
  occurs_at pat s i -> (i + String.length pat <= String.length s)%nat.
Proof.
  intros (pre & post & -> & <-). rewrite !length_app. lia.
Qed.

Lemma occurs_at_tail (pat : string) (a : ascii) (s : string) (j : nat) :
  occurs_at pat (String a s) (S j) <-> occurs_at pat s j.
Proof. rewrite !occurs_at_iff. simpl. intuition lia. Qed.

Lemma occurs_at_head (pat s : string) :
  occurs_at pat s 0 <-> prefix pat s = true.
Proof. rewrite occurs_at_iff, drop_0. intuition lia. Qed.

Lemma last_occurrence_none (pat s : string) :
  last_occurrence pat s = None -> forall j, ~ occurs_at pat s j.
Proof.
  induction s as [|a s IH]; cbn [last_occurrence].
  - destruct (prefix pat "") eqn:E; [discriminate|].
    intros _ j (pre & post & H & <-).
    destruct pre; [|discriminate]. simpl in H.
    assert (prefix pat "" = true) by (apply prefix_iff; eauto). congruence.
  - destruct (last_occurrence pat s); [discriminate|].
    destruct (prefix pat (String a s)) eqn:E; [discriminate|].
    intros _ [|j] H.
    + apply occurs_at_head in H. congruence.
    + apply occurs_at_tail in H. exact (IH eq_refl j H).
Qed.

Lemma last_occurrence_some (pat s : string) (i : nat) :
  last_occurrence pat s = Some i ->
  occurs_at pat s i /\ forall j, occurs_at pat s j -> (j <= i)%nat.
Proof.
  revert i; induction s as [|a s IH]; cbn [last_occurrence]; intros i.
  - destruct (prefix pat "") eqn:E; [|discriminate].
    intros [= <-]. split; [now apply occurs_at_head|].
    intros j H. apply occurs_at_bound in H. simpl in H. lia.
  - destruct (last_occurrence pat s) as [k|] eqn:L.
    + intros [= <-]. destruct (IH k eq_refl) as [H1 H2]. split.
      * now apply occurs_at_tail.
      * intros [|j] H; [lia|]. apply occurs_at_tail, H2 in H. lia.
    + destruct (prefix pat (String a s)) eqn:E; [|discriminate].
      intros [= <-]. split; [now apply occurs_at_head|].
      intros [|j] H; [lia|]. apply occurs_at_tail in H.
      now apply (last_occurrence_none _ _ L) in H.
Qed.

Lemma last_occurrence_intro (pat s : string) (i : nat) :
  occurs_at pat s i -> (forall j, occurs_at pat s j -> (j <= i)%nat) ->
  last_occurrence pat s = Some i.
Proof.
  intros Hi Hmax. destruct (last_occurrence pat s) as [k|] eqn:E.
  - apply last_occurrence_some in E as [Hk Hkmax].
    apply Hmax in Hk. apply Hkmax in Hi. f_equal. lia.
  - now apply (last_occurrence_none _ _ E) in Hi.
Qed.

Lemma last_occurrence_absent (pat s : string) :
  (forall j, ~ occurs_at pat s j) -> last_occurrence pat s = None.
Proof.
  intros H. destruct (last_occurrence pat s) as [k|] eqn:E; [|reflexivity].
  apply last_occurrence_some in E as [Hk _]. now apply H in Hk.
Qed.

(** A pattern that does not end with [d] cannot end where an appended
    [d] does. *)
Lemma prefix_app_char (pat t : string) (c d : ascii) :
  last pat = Some c -> c <> d ->
  prefix pat (t ++ String d "") = prefix pat t.
Proof.
  revert t; induction pat as [|a pat IH]; intros t Hl Hc; [discriminate|].
  destruct t as [|b t]; simpl.
  - destruct (ascii_dec a d) as [->|]; [|reflexivity].
    destruct pat; [|reflexivity]. simpl in Hl. congruence.
  - destruct (ascii_dec a b); [|reflexivity].
    destruct pat as [|a' pat]; [now destruct (t ++ String d ""), t|].
    apply IH; assumption.
Qed.

Lemma last_occurrence_app_char (pat s : string) (c d : ascii) :
  last pat = Some c -> c <> d ->
  last_occurrence pat (s ++ String d "") = last_occurrence pat s.
Proof.
  intros Hl Hc. induction s as [|a s IH].
  - pose proof (prefix_app_char pat "" c d Hl Hc) as H. simpl in H.
    simpl. rewrite H. destruct pat; [discriminate | reflexivity].
  - change (String a s ++ String d "") with (String a (s ++ String d "")).
    cbn [last_occurrence]. rewrite IH.
    change (String a (s ++ String d "")) with (String a s ++ String d "").
    now rewrite (prefix_app_char _ _ _ _ Hl Hc).
Qed.

(** *** Segments *)

Lemma split_not_nil (c : ascii) (s : string) : split c s <> [].
Proof.
  induction s as [|a s IH]; simpl; [discriminate|].
  destruct (Ascii.eqb a c); [discriminate|].
  destruct (split c s); discriminate.
Qed.

Lemma split_whole (c : ascii) (s : string) :
  index_of c s = None -> split c s = [s].
Proof.
  induction s as [|a s IH]; simpl; [reflexivity|].
  destruct (Ascii.eqb a c); [discriminate|].
  destruct (index_of c s); [discriminate|].
  intros _. now rewrite IH.
Qed.

Lemma split_at (c : ascii) (s : string) (i : nat) :
  index_of c s = Some i ->
  split c s = take i s :: split c (drop (S i) s).
Proof.
  revert i; induction s as [|a s IH]; simpl; intros i; [discriminate|].
  destruct (Ascii.eqb a c).
  - intros [= <-]. simpl. now rewrite ?drop_0.
  - destruct (index_of c s) as [j|]; [|discriminate].
    intros [= <-]. now rewrite (IH j eq_refl).
Qed.

Lemma split_length (c : ascii) (s : string) :
  List.length (split c s) = S (count c s).
Proof.
  induction s as [|a s IH]; simpl; [reflexivity|].
  destruct (Ascii.eqb a c); simpl; [now rewrite IH|].
  destruct (split c s); simpl in *; [discriminate | assumption].
Qed.

Lemma split_concat (c : ascii) (s : string) :
  String.concat (String c "") (split c s) = s.
Proof.
  induction s as [|a s IH]; [reflexivity|].
  simpl. destruct (Ascii.eqb a c) eqn:E.
  - apply Ascii.eqb_eq in E; subst a.
    pose proof (split_not_nil c s) as N.
    destruct (split c s); [contradiction|].
    simpl in *. now rewrite IH.
  - pose proof (split_not_nil c s) as N.
    destruct (split c s) as [|seg [|seg' rest]]; [contradiction| |];
      simpl in *; now rewrite <- IH.
Qed.

Lemma split_segments (c : ascii) (s : string) :
  Forall (fun seg => count c seg = 0%nat) (split c s).
Proof.
  induction s as [|a s IH]; simpl; [now repeat constructor|].
  destruct (Ascii.eqb a c) eqn:E; [now constructor|].
  destruct (split c s) as [|seg rest]; [now repeat constructor; simpl; rewrite E|].
  inversion IH; subst. constructor; [simpl; now rewrite E | assumption].
Qed.

(** The last [c] of [s], told by what the positions hold. *)
Lemma last_index_of_intro (c : ascii) (s : string) (d : nat) :
  get d s = Some c ->
  (forall e, (d < e < String.length s)%nat -> get e s <> Some c) ->
  last_index_of c s = Some d.
Proof.
  intros Hd Hafter.
  destruct (last_index_of c s) as [d'|] eqn:E.
  - destruct (last_index_of_some _ _ _ E) as (Hlt & Hg & Hz).
    destruct (Nat.lt_trichotomy d d') as [Hc|[->|Hc]]; [| reflexivity |].
    + now destruct (Hafter d' ltac:(lia)).
    + replace d with (S d' + (d - S d'))%nat in Hd by lia.
      rewrite <- get_drop_add in Hd. apply get_count_pos in Hd. lia.
  - apply last_index_of_none in E. apply get_count_pos in Hd. lia.
Qed.

End StrFacts.

(** ** Machine arithmetic and the [std::string] members *)

Module StdFacts.
Import Str StrFacts.

Lemma wrap_negative (x : Z) : - modulus <= x < 0 -> wrap x = x + modulus.
Proof.
  intros H. unfold wrap. symmetry.
  apply (Z.mod_unique x modulus (-1)); unfold modulus in *; lia.
Qed.

Lemma size_nonneg (s : string) : 0 <= size s.
Proof. unfold size. lia. Qed.

Lemma size_app (s t : string) : size (s ++ t) = size s + size t.
Proof. unfold size. rewrite length_app. lia. Qed.

Lemma position_in_range (s : string) (i : nat) :
  fits s -> (i < String.length s)%nat ->
  0 <= position (Some i) < npos /\ (position (Some i) =? npos) = false.
Proof.
  unfold fits, size, npos, modulus, position. intros H Hi.
  split; [lia | apply Z.eqb_neq; lia].
Qed.

Lemma substr_nat (s : string) (p n : nat) :
  (p <= String.length s)%nat ->
  substr s (Z.of_nat p) (Z.of_nat n) = Returns (take n (drop p s)).
Proof.
  intros Hp. unfold substr, size.
  destruct (Z.ltb_spec (Z.of_nat (String.length s)) (Z.of_nat p)); [lia|].
  f_equal. rewrite Nat2Z.id.
  destruct (Z.min_spec (Z.of_nat n) (Z.of_nat (String.length s) - Z.of_nat p))
    as [[_ ->]|[Hle ->]].
  - now rewrite Nat2Z.id.
  - rewrite !take_all; try reflexivity; rewrite drop_length; lia.
Qed.

Lemma substr_rest (s : string) (p : nat) (n : Z) :
  (p <= String.length s)%nat -> size s - Z.of_nat p <= n ->
  substr s (Z.of_nat p) n = Returns (drop p s).
Proof.
  intros Hp Hn. unfold substr, size in *.
  destruct (Z.ltb_spec (Z.of_nat (String.length s)) (Z.of_nat p)); [lia|].
  f_equal. rewrite Nat2Z.id. apply take_all. rewrite drop_length. lia.
Qed.

Lemma find_first_of_nat (s : string) (c : ascii) (p : nat) :
  (p <= String.length s)%nat ->
  find_first_of s c (Z.of_nat p) =
  position (option_map (fun i => p + i)%nat (index_of c (drop p s))).
Proof.
  intros Hp. unfold find_first_of, size.
  destruct (Z.leb_spec (Z.of_nat (String.length s)) (Z.of_nat p)).
  - rewrite drop_all by lia. reflexivity.
  - now rewrite Nat2Z.id.
Qed.

Lemma find_last_of_nat (s : string) (c : ascii) (t : nat) :
  (0 < t <= String.length s)%nat ->
  find_last_of s c (Z.of_nat t - 1) = position (last_index_of c (take t s)).
Proof.
  intros Ht. unfold find_last_of, size.
  destruct (Z.eqb_spec (Z.of_nat (String.length s)) 0); [lia|].
  rewrite Z.min_l by lia.
  replace (Z.of_nat t - 1 + 1) with (Z.of_nat t) by lia.
  now rewrite Nat2Z.id.
Qed.

Lemma fits_take (n : nat) (s : string) : fits s -> fits (take n s).
Proof. unfold fits, size. rewrite take_length. lia. Qed.

Lemma fits_drop (n : nat) (s : string) : fits s -> fits (drop n s).
Proof. unfold fits, size. rewrite drop_length. lia. Qed.

End StdFacts.

(** ** [SplitSubtypes] *)

Module SubtypesFacts.
Import Str StrFacts StdFacts.

Ltac size_arith :=
  unfold wrap, fits, size, npos, modulus in *;
  repeat match goal with
    | |- context [?x mod 18446744073709551616] =>
        rewrite (Z.mod_small x 18446744073709551616) by lia
    end;
  lia.

(** One turn of the loop, by positions in the fragment. *)
Lemma loop_step (n : nat) (s : string) (p : nat) (acc : list string) :
  fits s -> (p < String.length s)%nat ->
  SplitSubtypes_loop (S n) s (Z.of_nat p) acc =
  match index_of "," (drop (S p) s) with
  | None => SplitSubtypes_loop n s (Z.of_nat p) (acc ++ [drop (S p) s])
  | Some i =>
      SplitSubtypes_loop n s (Z.of_nat (S p + i))
        (acc ++ [take i (drop (S p) s)])
  end.
Proof.
  intros Hs Hp. cbn [SplitSubtypes_loop].
  replace (wrap (Z.of_nat p + 1)) with (Z.of_nat (S p)) by size_arith.
  rewrite find_first_of_nat by lia.
  destruct (index_of "," (drop (S p) s)) as [i|] eqn:E; cbn [option_map].
  - destruct (index_of_some _ _ _ E) as (Hi & _ & _).
    rewrite drop_length in Hi.
    destruct (position_in_range s (S p + i) Hs ltac:(lia)) as [_ ->].
    cbn [position].
    replace (wrap (wrap (Z.of_nat (S p + i) - Z.of_nat p) - 1))
      with (Z.of_nat i) by size_arith.
    rewrite substr_nat by lia. reflexivity.
  - cbn [position]. rewrite Z.eqb_refl.
    rewrite substr_rest; [reflexivity | lia |].
    unfold fits in Hs. pose proof (size_nonneg s). lia.
Qed.

(** The loop never fails and pushes one entry per turn. *)
Lemma loop_total (n : nat) (s : string) (p : nat) (acc : list string) :
  fits s -> (p < String.length s)%nat ->
  exists subs,
    SplitSubtypes_loop n s (Z.of_nat p) acc = Returns (acc ++ subs)%list /\
    List.length subs = n.
Proof.
  intros Hs. revert p acc; induction n as [|n IH]; intros p acc Hp.
  - exists []. now rewrite app_nil_r.
  - rewrite loop_step by assumption.
    destruct (index_of "," (drop (S p) s)) as [i|] eqn:E.
    + destruct (index_of_some _ _ _ E) as (Hi & _ & _).
      rewrite drop_length in Hi.
      destruct (IH (S p + i)%nat (acc ++ [take i (drop (S p) s)])%list
                  ltac:(lia)) as (subs & -> & Hl).
      exists (take i (drop (S p) s) :: subs).
      rewrite <- List.app_assoc. simpl. now rewrite Hl.
    + destruct (IH p (acc ++ [drop (S p) s])%list Hp) as (subs & -> & Hl).
      exists (drop (S p) s :: subs).
      rewrite <- List.app_assoc. simpl. now rewrite Hl.
Qed.

(** Started on a comma and run once per remaining segment, the loop
    pushes exactly the segments that follow that comma. *)
Lemma loop_exact (n : nat) (s : string) (p : nat) (acc : list string) :
  fits s -> (p < String.length s)%nat ->
  n = S (count "," (drop (S p) s)) ->
  SplitSubtypes_loop n s (Z.of_nat p) acc =
  Returns (acc ++ split "," (drop (S p) s))%list.
Proof.
  intros Hs. revert p acc; induction n as [|n IH]; intros p acc Hp Hn;
    [discriminate|].
  rewrite loop_step by assumption.
  destruct (index_of "," (drop (S p) s)) as [i|] eqn:E.
  - destruct (index_of_some _ _ _ E) as (Hi & Hc & Hd).
    rewrite drop_length in Hi.
    assert (Hdd : drop (S i) (drop (S p) s) = drop (S (S p + i)) s).
    { rewrite drop_drop. f_equal. lia. }
    rewrite (split_at _ _ _ E), Hdd.
    assert (Hcnt : count "," (drop (S p) s) =
                   S (count "," (drop (S (S p + i)) s))).
    { rewrite <- (take_drop i (drop (S p) s)) at 1.
      rewrite count_app, Hc, Hd, Hdd. cbn [count].
      now rewrite Ascii.eqb_refl. }
    rewrite IH; [now rewrite <- List.app_assoc | lia | lia].
  - rewrite (split_whole _ _ E).
    apply index_of_none in E. rewrite E in Hn.
    injection Hn as ->. reflexivity.
Qed.

Lemma int_of_count_small (k : nat) :
  Z.of_nat k <= Int.max -> Z.to_nat (Int.of_Z (Z.of_nat k)) = k.
Proof.
  intros H. unfold Int.of_Z, Int.max, Int.modulus in *.
  rewrite Z.mod_small by lia.
  destruct (Z.leb_spec (Z.of_nat k) 2147483647); lia.
Qed.

Lemma first_comma (s : string) :
  find_first_of s "," 0 = position (index_of "," s).
Proof.
  change 0 with (Z.of_nat 0).
  rewrite (find_first_of_nat s "," 0) by lia. rewrite drop_0.
  now destruct (index_of "," s).
Qed.

(** [SplitSubtypes] returns, and only appends. *)
Lemma SplitSubtypes_total (s : string) (l : list string) :
  fits s -> exists subs, SplitSubtypes s l = Returns (l ++ subs)%list.
Proof.
  intros Hs. unfold SplitSubtypes. rewrite first_comma.
  destruct (index_of "," s) as [p|] eqn:E.
  - destruct (index_of_some _ _ _ E) as (Hp & _ & _).
    destruct (loop_total (Z.to_nat (Int.of_Z (StdString.count s ","))) s p l
                Hs Hp)
      as (subs & H & _).
    exists subs. exact H.
  - apply index_of_none in E. unfold StdString.count. rewrite E.
    exists []. now rewrite app_nil_r.
Qed.

(** With a comma count that fits the loop counter, [SplitSubtypes]
    appends the segments after the first comma. *)
Lemma SplitSubtypes_exact (s : string) (l : list string) :
  fits s -> StdString.count s "," <= Int.max ->
  SplitSubtypes s l = Returns (l ++ tl (split "," s))%list.
Proof.
  intros Hs Hc. unfold SplitSubtypes, StdString.count in *.
  rewrite first_comma, int_of_count_small by assumption.
  destruct (index_of "," s) as [p|] eqn:E.
  - destruct (index_of_some _ _ _ E) as (Hp & Hz & Hd).
    rewrite (split_at _ _ _ E). cbn [tl position].
    apply loop_exact; try assumption.
    rewrite <- (take_drop p s) at 1. rewrite count_app, Hz, Hd.
    cbn [count]. now rewrite Ascii.eqb_refl.
  - rewrite (split_whole _ _ E). apply index_of_none in E. rewrite E.
    simpl. now rewrite app_nil_r.
Qed.

End SubtypesFacts.

(** ** [SplitFullDnsName] *)

Module SplitFacts.
Import Str StrFacts StdFacts SubtypesFacts.

Lemma ends_with_dot_last (s : string) :
  NameEndsWithDot s = true <-> last s = Some "."%char.
Proof.
  unfold NameEndsWithDot. destruct s as [|a s]; [simpl; split; discriminate|].
  cbn [empty negb andb]. destruct (last (String a s)) as [c|].
  - rewrite Ascii.eqb_eq. split; congruence.
  - split; discriminate.
Qed.

Lemma ends_with_dot_app (s : string) : NameEndsWithDot (s ++ ".") = true.
Proof. apply ends_with_dot_last, last_app_char. Qed.

Lemma ends_with_dot_iff (s : string) :
  NameEndsWithDot s = true <-> exists p, s = p ++ ".".
Proof.
  split.
  - intros H. apply ends_with_dot_last in H. now apply last_some.
  - intros [p ->]. apply ends_with_dot_app.
Qed.

Lemma normalized_dotted (aName : string) :
  NameEndsWithDot aName = true -> normalized aName = aName.
Proof. unfold normalized. now intros ->. Qed.

Lemma normalized_undotted (aName : string) :
  NameEndsWithDot aName = false -> normalized aName = aName ++ ".".
Proof. unfold normalized. now intros ->. Qed.

Lemma normalized_ends (aName : string) :
  NameEndsWithDot (normalized aName) = true.
Proof.
  unfold normalized. destruct (NameEndsWithDot aName) eqn:E; simpl;
    [assumption | apply ends_with_dot_app].
Qed.

Lemma normalized_fits (aName : string) :
  fits (aName ++ ".") -> fits (normalized aName).
Proof.
  unfold normalized, fits. rewrite size_app.
  destruct (NameEndsWithDot aName); simpl; [|now rewrite size_app].
  pose proof (size_nonneg "."). lia.
Qed.

(** The domain after lines 100-103. *)
Lemma terminateDomain_domain (n : DnsNameInfo) :
  mDomain (terminateDomain n) =
  if NameEndsWithDot (mDomain n) then mDomain n else mDomain n ++ ".".
Proof. unfold terminateDomain. now destruct (NameEndsWithDot (mDomain n)). Qed.

Lemma terminateDomain_ends (n : DnsNameInfo) :
  NameEndsWithDot (mDomain (terminateDomain n)) = true.
Proof.
  rewrite terminateDomain_domain.
  destruct (NameEndsWithDot (mDomain n)) eqn:E;
    [assumption | apply ends_with_dot_app].
Qed.

Lemma terminateDomain_others (n : DnsNameInfo) :
  mInstanceName (terminateDomain n) = mInstanceName n /\
  mServiceName (terminateDomain n) = mServiceName n /\
  mHostName (terminateDomain n) = mHostName n /\
  mSubtypes (terminateDomain n) = mSubtypes n.
Proof. unfold terminateDomain. now destruct (NameEndsWithDot (mDomain n)). Qed.

(** Lines 52-57 by positions: the last "._udp", else the last "._tcp". *)
Lemma transportPosition_nat (s : string) :
  fits s ->
  transportPosition s =
  position match last_occurrence "._udp" s with
           | Some i => Some i
           | None => last_occurrence "._tcp" s
           end.
Proof.
  intros Hs. unfold transportPosition, rfind.
  destruct (last_occurrence "._udp" s) as [i|] eqn:E; [|reflexivity].
  apply last_occurrence_some in E as [E _]. apply occurs_at_bound in E.
  simpl in E.
  destruct (position_in_range s i Hs ltac:(lia)) as [_ ->]. reflexivity.
Qed.

Lemma transportPosition_cases (s : string) :
  fits s ->
  (transportPosition s = npos /\
   last_occurrence "._udp" s = None /\ last_occurrence "._tcp" s = None) \/
  (exists t, transportPosition s = Z.of_nat t /\
             (t + 5 <= String.length s)%nat /\
             (last_occurrence "._udp" s = Some t \/
              last_occurrence "._udp" s = None /\
              last_occurrence "._tcp" s = Some t)).
Proof.
  intros Hs. rewrite (transportPosition_nat s Hs).
  destruct (last_occurrence "._udp" s) as [i|] eqn:E1.
  - right. exists i. apply last_occurrence_some in E1 as H.
    destruct H as [H _]. apply occurs_at_bound in H. simpl in H. auto.
  - destruct (last_occurrence "._tcp" s) as [i|] eqn:E2.
    + right. exists i. apply last_occurrence_some in E2 as H.
      destruct H as [H _]. apply occurs_at_bound in H. simpl in H. auto.
    + left. auto.
Qed.

(** *** The branches on a dot-terminated name *)

Lemma nonempty_of_length (s : string) : (0 < String.length s)%nat -> s <> "".
Proof. destruct s; simpl; [lia | discriminate]. Qed.

Section DotTerminated.

Variable s : string.
Hypothesis Hs : fits s.
Hypothesis Hl : last s = Some "."%char.

(** The non-service branch, lines 59-69. *)
Lemma splitBranches_host :
  transportPosition s = npos ->
  exists i,
    index_of "." s = Some i /\
    splitBranches s =
    Returns {| mInstanceName := ""; mServiceName := ""; mHostName := take i s;
               mSubtypes := []; mDomain := drop (S i) s |}.
Proof.
  intros Ht. unfold splitBranches. rewrite Ht, Z.eqb_refl.
  change 0 with (Z.of_nat 0). rewrite find_first_of_nat by lia.
  rewrite drop_0.
  destruct (index_of "." s) as [i|] eqn:E.
  2:{ apply index_of_none in E. pose proof (last_count_pos _ _ Hl). lia. }
  exists i. split; [reflexivity|].
  destruct (index_of_some _ _ _ E) as (Hi & _ & _).
  cbn [option_map Nat.add].
  destruct (position_in_range s i Hs Hi) as [_ ->].
  cbn [negb assert bind position].
  rewrite substr_nat by lia. rewrite drop_0. cbn [bind].
  replace (wrap (Z.of_nat i + 1)) with (Z.of_nat (S i)) by size_arith.
  replace (wrap (wrap (size s - Z.of_nat i) - 1))
    with (Z.of_nat (String.length s - S i)) by size_arith.
  rewrite substr_nat by lia. cbn [bind].
  rewrite (take_all (String.length s - S i) (drop (S i) s))
    by (rewrite drop_length; lia).
  reflexivity.
Qed.

(** The service branch, lines 70-98, with the transport marker at [t]. *)
Lemma splitBranches_service (t : nat) :
  transportPosition s = Z.of_nat t -> (t + 5 <= String.length s)%nat ->
  exists j subs,
    index_of "." (drop (S t) s) = Some j /\
    (S t + j < String.length s)%nat /\
    match index_of "," s with
    | None => subs = []
    | Some k =>
        SplitSubtypes
          (if (k <=? S t + j)%nat then take (S t + j - k) (drop k s)
           else drop k s) [] = Returns subs
    end /\
    splitBranches s =
    Returns
      match last_index_of "." (take t s) with
      | None =>
          {| mInstanceName := ""; mServiceName := take (t + 5) s;
             mHostName := ""; mSubtypes := subs;
             mDomain := drop (S (S t + j)) s |}
      | Some d =>
          {| mInstanceName := take d s;
             mServiceName := take (t + 4 - d) (drop (S d) s);
             mHostName := ""; mSubtypes := subs;
             mDomain := drop (S (S t + j)) s |}
      end.
Proof.
  intros Ht Hb.
  (* the first dot after the marker *)
  destruct (index_of "." (drop (S t) s)) as [j|] eqn:Ej.
  2:{ apply index_of_none in Ej.
      pose proof Hl as Hl'. rewrite <- (last_drop (S t) s) in Hl' by lia.
      apply last_count_pos in Hl'. lia. }
  destruct (index_of_some _ _ _ Ej) as (Hj & _ & _).
  rewrite drop_length in Hj.
  (* the subtypes *)
  assert (Hsub : exists subs,
    (if negb (find_first_of s "," 0 =? npos)
     then fragment <- substr s (find_first_of s "," 0)
                        (wrap (Z.of_nat (S t + j) - find_first_of s "," 0)) ;;
          SplitSubtypes fragment []
     else Returns []) = Returns subs /\
    match index_of "," s with
    | None => subs = []
    | Some k =>
        SplitSubtypes
          (if (k <=? S t + j)%nat then take (S t + j - k) (drop k s)
           else drop k s) [] = Returns subs
    end).
  { rewrite first_comma. destruct (index_of "," s) as [k|] eqn:Ek.
    - destruct (index_of_some _ _ _ Ek) as (Hk & _ & _).
      destruct (position_in_range s k Hs Hk) as [_ ->].
      cbn [negb position].
      destruct (Nat.leb_spec k (S t + j)) as [Hle|Hgt].
      + replace (wrap (Z.of_nat (S t + j) - Z.of_nat k))
          with (Z.of_nat (S t + j - k)) by size_arith.
        rewrite substr_nat by lia. cbn [bind].
        destruct (SplitSubtypes_total (take (S t + j - k) (drop k s)) [])
          as [subs H]; [now apply fits_take, fits_drop|].
        exists subs. now rewrite H.
      + rewrite substr_rest; [|lia|].
        2:{ rewrite wrap_negative; size_arith. }
        cbn [bind].
        destruct (SplitSubtypes_total (drop k s) [])
          as [subs H]; [now apply fits_drop|].
        exists subs. now rewrite H.
    - cbn [position]. rewrite Z.eqb_refl. exists []. now split. }
  destruct Hsub as (subs & Hsub & Hspec).
  exists j, subs. repeat split; try assumption; try lia.
  unfold splitBranches. rewrite Ht.
  destruct (position_in_range s t Hs ltac:(lia)) as [_ Hne].
  cbn [position] in Hne. rewrite Hne.
  replace (wrap (Z.of_nat t + 1)) with (Z.of_nat (S t)) by size_arith.
  rewrite find_first_of_nat by lia. rewrite Ej. cbn [option_map position].
  replace (wrap (Z.of_nat (S t + j) + 1)) with (Z.of_nat (S (S t + j)))
    by size_arith.
  rewrite substr_rest; [|lia|size_arith]. cbn [bind].
  rewrite Hsub. cbn [bind].
  (* the last dot before the marker *)
  assert (Hdot :
    (if 0 <? Z.of_nat t then find_last_of s "." (wrap (Z.of_nat t - 1))
     else npos) = position (last_index_of "." (take t s))).
  { destruct (Z.ltb_spec 0 (Z.of_nat t)).
    - replace (wrap (Z.of_nat t - 1)) with (Z.of_nat t - 1) by size_arith.
      apply find_last_of_nat. lia.
    - replace t with 0%nat by lia. now rewrite take_0. }
  rewrite Hdot.
  destruct (last_index_of "." (take t s)) as [d|] eqn:Ed.
  - destruct (last_index_of_some _ _ _ Ed) as (Hd & _ & _).
    rewrite take_length in Hd.
    destruct (position_in_range s d Hs ltac:(lia)) as [_ ->].
    cbn [position]. change 0 with (Z.of_nat 0).
    rewrite substr_nat by lia. rewrite drop_0. cbn [bind].
    replace (wrap (Z.of_nat d + 1)) with (Z.of_nat (S d)) by size_arith.
    replace (wrap (wrap (Z.of_nat t + 4) - Z.of_nat d))
      with (Z.of_nat (t + 4 - d)) by size_arith.
    rewrite substr_nat by lia. reflexivity.
  - cbn [position]. rewrite Z.eqb_refl.
    replace (wrap (Z.of_nat t + 5)) with (Z.of_nat (t + 5)) by size_arith.
    change 0 with (Z.of_nat 0).
    rewrite substr_nat by lia. rewrite drop_0. reflexivity.
Qed.

(** Both branches return, and what they return has one of two shapes. *)
Lemma splitBranches_shape :
  exists raw,
    splitBranches s = Returns raw /\
    (mServiceName raw = "" /\ mInstanceName raw = "" \/
     mHostName raw = "" /\ mServiceName raw <> "").
Proof.
  destruct (transportPosition_cases s Hs) as [(Ht & _)|(t & Ht & Hb & _)].
  - destruct (splitBranches_host Ht) as (i & _ & ->).
    eexists. split; [reflexivity|]. left. now split.
  - destruct (splitBranches_service t Ht Hb)
      as (j & subs & _ & Hj & _ & ->).
    eexists. split; [reflexivity|]. right.
    destruct (last_index_of "." (take t s)) as [d|] eqn:Ed;
      cbn [mHostName mServiceName].
    + destruct (last_index_of_some _ _ _ Ed) as (Hd & _ & _).
      rewrite take_length in Hd.
      split; [reflexivity|]. apply nonempty_of_length.
      rewrite take_length, drop_length. lia.
    + split; [reflexivity|]. apply nonempty_of_length.
      rewrite take_length. lia.
Qed.

End DotTerminated.

Lemma SplitFullDnsName_shape (aName : string) :
  fits (aName ++ ".") ->
  exists raw,
    splitBranches (normalized aName) = Returns raw /\
    SplitFullDnsName aName = Returns (terminateDomain raw) /\
    (mServiceName raw = "" /\ mInstanceName raw = "" \/
     mHostName raw = "" /\ mServiceName raw <> "").
Proof.
  intros Hf.
  destruct (splitBranches_shape (normalized aName)) as (raw & Hr & Hshape).
  - now apply normalized_fits.
  - apply ends_with_dot_last, normalized_ends.
  - exists raw. unfold SplitFullDnsName. rewrite Hr. auto.
Qed.

(** What is left of a dot-terminated name after a position is empty or
    dot-terminated. *)
Lemma drop_dotted (m : nat) (s : string) :
  last s = Some "."%char ->
  drop m s = "" \/ last (drop m s) = Some "."%char.
Proof.
  intros Hl. destruct (Nat.lt_ge_cases m (String.length s)).
  - right. now rewrite last_drop.
  - left. now apply drop_all.
Qed.

Lemma transportPosition_app_dot (s : string) :
  fits (s ++ ".") -> transportPosition (s ++ ".") = transportPosition s.
Proof.
  intros Hs'.
  assert (Hs : fits s).
  { unfold fits in *. rewrite size_app in Hs'.
    pose proof (size_nonneg "."). lia. }
  rewrite !transportPosition_nat by assumption.
  now rewrite !(last_occurrence_app_char _ s "p" ".") by
    (reflexivity || discriminate).
Qed.

(** One more '.' behind a dot-terminated name: the same split, the extra
    '.' staying with the domain. *)
Lemma splitBranches_app_dot (s : string) :
  fits (s ++ ".") -> last s = Some "."%char ->
  exists r1 r2,
    splitBranches s = Returns r1 /\
    splitBranches (s ++ ".") = Returns r2 /\
    mHostName r2 = mHostName r1 /\
    mServiceName r2 = mServiceName r1 /\
    mInstanceName r2 = mInstanceName r1 /\
    mDomain r2 = mDomain r1 ++ "." /\
    (mDomain r1 = "" \/ last (mDomain r1) = Some "."%char) /\
    (count "," (mDomain r1) = 0%nat -> mSubtypes r2 = mSubtypes r1).
Proof.
  intros Hs' Hl.
  assert (Hs : fits s).
  { unfold fits in *. rewrite size_app in Hs'.
    pose proof (size_nonneg "."). lia. }
  assert (Hl' : last (s ++ ".") = Some "."%char) by apply last_app_char.
  pose proof (transportPosition_app_dot s Hs') as Ht'.
  assert (Hlen : String.length (s ++ ".") = S (String.length s)).
  { rewrite length_app. simpl. lia. }
  destruct (transportPosition_cases s Hs) as [(Ht & _)|(t & Ht & Hb & _)].
  - (* host.domain *)
    rewrite Ht in Ht'.
    destruct (splitBranches_host s Hs Hl Ht) as (i & Ei & ->).
    destruct (splitBranches_host _ Hs' Hl' Ht') as (i' & Ei' & ->).
    rewrite (index_of_app_l _ _ "." _ Ei) in Ei'. injection Ei' as <-.
    destruct (index_of_some _ _ _ Ei) as (Hi & _ & _).
    do 2 eexists. split; [reflexivity|]. split; [reflexivity|].
    cbn [mHostName mServiceName mInstanceName mDomain mSubtypes].
    rewrite take_app, drop_app by lia.
    repeat split. now apply drop_dotted.
  - (* service or service instance *)
    rewrite Ht in Ht'.
    destruct (splitBranches_service s Hs Hl t Ht Hb)
      as (j & subs & Ej & Hj & Hsub & ->).
    destruct (splitBranches_service _ Hs' Hl' t Ht' ltac:(lia))
      as (j' & subs' & Ej' & _ & Hsub' & ->).
    rewrite drop_app in Ej' by lia.
    rewrite (index_of_app_l _ _ "." _ Ej) in Ej'. injection Ej' as <-.
    rewrite (take_app t s ".") by lia.
    assert (Hdom : drop (S (S t + j)) (s ++ ".") = drop (S (S t + j)) s ++ ".")
      by (apply drop_app; lia).
    assert (Hsubs : count "," (drop (S (S t + j)) s) = 0%nat -> subs' = subs).
    { intros Hz. destruct (index_of "," s) as [k|] eqn:Ek.
      - rewrite (index_of_app_l _ _ "." _ Ek) in Hsub'.
        destruct (Nat.leb_spec k (S t + j)) as [Hle|Hgt].
        + rewrite drop_app, take_app in Hsub'
            by (rewrite ?drop_length; destruct (index_of_some _ _ _ Ek); lia).
          congruence.
        + pose proof (count_drop_pos _ _ _ (S (S t + j)) Ek ltac:(lia)). lia.
      - rewrite (index_of_app_r _ _ "." Ek) in Hsub'. simpl in Hsub'.
        congruence. }
    destruct (last_index_of "." (take t s)) as [d|] eqn:Ed.
    + destruct (last_index_of_some _ _ _ Ed) as (Hd & _ & _).
      rewrite take_length in Hd.
      do 2 eexists. split; [reflexivity|]. split; [reflexivity|].
      cbn [mHostName mServiceName mInstanceName mDomain mSubtypes].
      rewrite Hdom, (take_app d s "."), (drop_app (S d) s ".") by lia.
      rewrite take_app by (rewrite drop_length; lia).
      repeat split; [now apply drop_dotted | exact Hsubs].
    + do 2 eexists. split; [reflexivity|]. split; [reflexivity|].
      cbn [mHostName mServiceName mInstanceName mDomain mSubtypes].
      rewrite Hdom, (take_app (t + 5) s ".") by lia.
      repeat split; [now apply drop_dotted | exact Hsubs].
Qed.

(** The dot the domain is cut at: the first '.' of a name without a
    transport marker, the first '.' behind the marker otherwise. *)
Lemma splitBranches_domain_at (s : string) :
  fits s -> last s = Some "."%char ->
  exists raw front,
    splitBranches s = Returns raw /\
    s = front ++ "." ++ mDomain raw /\
    (transportPosition s = npos -> count "." front = 0%nat) /\
    (forall t,
       transportPosition s = Z.of_nat t -> transportPosition s <> npos ->
       (t < String.length front)%nat /\
       forall e, (t < e < String.length front)%nat ->
                 get e s <> Some "."%char).
Proof.
  intros Hs Hl.
  destruct (transportPosition_cases s Hs) as [(Ht & _)|(t & Ht & Hb & _)].
  - destruct (splitBranches_host s Hs Hl Ht) as (i & Ei & ->).
    destruct (index_of_some _ _ _ Ei) as (_ & Hc & Hd).
    eexists. exists (take i s). split; [reflexivity|].
    cbn [mDomain]. split; [|split].
    + rewrite <- (take_drop i s) at 1. now rewrite Hd.
    + intros _. exact Hc.
    + intros t _ Hne. contradiction.
  - destruct (splitBranches_service s Hs Hl t Ht Hb)
      as (j & subs & Ej & Hj & _ & ->).
    destruct (index_of_some _ _ _ Ej) as (_ & Hc & Hd).
    assert (Hcut : drop (S t + j) s = String "." (drop (S (S t + j)) s)).
    { rewrite <- (drop_drop j (S t)), Hd, drop_drop. do 2 f_equal. lia. }
    assert (Hfront : String.length (take (S t + j) s) = (S t + j)%nat)
      by (rewrite take_length; lia).
    eexists. exists (take (S t + j) s). split; [reflexivity|].
    rewrite Hfront. split; [|split].
    + rewrite <- (take_drop (S t + j) s) at 1. rewrite Hcut.
      do 2 f_equal. symmetry.
      now destruct (last_index_of "." (take t s)).
    + intros Hn. rewrite Hn in Ht. unfold fits, size, npos, modulus in *. lia.
    + intros t' Ht' _. rewrite Ht in Ht'. apply Nat2Z.inj in Ht'. subst t'.
      split; [lia|]. intros e He Hg.
      replace e with (S t + (e - S t))%nat in Hg by lia.
      rewrite <- get_drop_add, <- (get_take _ j) in Hg by lia.
      apply get_count_pos in Hg. lia.
Qed.

End SplitFacts.

(** * The claims *)

Import Str StrFacts StdFacts SubtypesFacts SplitFacts.

(** C1.  Where the subtypes go: SplitFullDnsName hands the text from the
    first ',' up to the first '.' after the transport marker to
    SplitSubtypes.  For "myinstance,subA,subB._service._udp.example.com."
    that text is ",subA,subB._service._udp", and the instance name keeps
    the subtypes; the name "myinstance._service._udp,subA,subB.example.com."
    is the one that splits into "myinstance", "_service._udp",
    ["subA"; "subB"] and "example.com.". *)
Theorem split_instance_with_subtypes :
  let fullName := "myinstance,subA,subB._service._udp.example.com." in
  (normalized fullName = fullName /\
   transportPosition fullName = 29 /\
   find_first_of fullName "." (wrap (29 + 1)) = 34 /\
   find_first_of fullName "," 0 = 10 /\
   substr fullName 10 (wrap (34 - 10)) = Returns ",subA,subB._service._udp" /\
   SplitSubtypes ",subA,subB._service._udp" [] =
     Returns ["subA"; "subB._service._udp"]) /\
  SplitFullDnsName fullName =
    Returns {| mInstanceName := "myinstance,subA,subB";
               mServiceName := "_service._udp"; mHostName := "";
               mSubtypes := ["subA"; "subB._service._udp"];
               mDomain := "example.com." |} /\
  SplitFullDnsName "myinstance._service._udp,subA,subB.example.com." =
    Returns {| mInstanceName := "myinstance";
               mServiceName := "_service._udp"; mHostName := "";
               mSubtypes := ["subA"; "subB"];
               mDomain := "example.com." |}.
Proof. vm_compute. repeat split. Qed.

Lemma split_instance_with_subtypes_as_claimed_fails :
  exists nameInfo,
    SplitFullDnsName "myinstance,subA,subB._service._udp.example.com." =
      Returns nameInfo /\
    mInstanceName nameInfo <> "myinstance" /\
    mSubtypes nameInfo <> ["subA"; "subB"].
Proof.
  eexists. split; [vm_compute; reflexivity|]. split; discriminate.
Qed.

(** C2.  A trailing '.' is optional: appending it to a name that lacks it
    changes nothing.  Appended to a name that already ends with '.', it
    stays with the domain: host, service and instance names are the same;
    with the name read as front, '.', rest at the dot the domain is cut at
    (the first '.' of a name without transport marker, the first '.'
    behind the marker otherwise), the domain of the name is rest ("." when
    rest is empty) and the domain of the longer name is rest and the extra
    '.'; and the subtypes are the same when no ',' stands in the domain. *)
Theorem split_extra_trailing_dot (name : string) :
  fits (name ++ ".") ->
  (NameEndsWithDot name = false ->
   SplitFullDnsName (name ++ ".") = SplitFullDnsName name) /\
  (NameEndsWithDot name = true ->
   exists n1 n2 front rest,
     SplitFullDnsName name = Returns n1 /\
     SplitFullDnsName (name ++ ".") = Returns n2 /\
     name = front ++ "." ++ rest /\
     (transportPosition name = npos -> Str.count "." front = 0%nat) /\
     (forall t,
        transportPosition name = Z.of_nat t ->
        transportPosition name <> npos ->
        (t < String.length front)%nat /\
        forall e, (t < e < String.length front)%nat ->
                  get e name <> Some "."%char) /\
     mHostName n2 = mHostName n1 /\
     mServiceName n2 = mServiceName n1 /\
     mInstanceName n2 = mInstanceName n1 /\
     mDomain n1 = (if empty rest then "." else rest) /\
     mDomain n2 = rest ++ "." /\
     (Str.count "," (mDomain n1) = 0%nat -> mSubtypes n2 = mSubtypes n1)).
Proof.
  intros Hf. split; intros He.
  - unfold SplitFullDnsName.
    rewrite (normalized_undotted name He).
    now rewrite (normalized_dotted (name ++ ".") (ends_with_dot_app name)).
  - pose proof (proj1 (ends_with_dot_last name) He) as Hl.
    assert (Hs : fits name).
    { unfold fits in *. rewrite size_app in Hf.
      pose proof (size_nonneg "."). lia. }
    destruct (splitBranches_app_dot name Hf Hl)
      as (r1 & r2 & H1 & H2 & Hh & Hsv & Hi & Hd & Hrest & Hsub).
    destruct (splitBranches_domain_at name Hs Hl)
      as (raw & front & Hraw & Hname & Hhost & Hservice).
    rewrite H1 in Hraw. injection Hraw as <-.
    exists (terminateDomain r1), (terminateDomain r2), front, (mDomain r1).
    unfold SplitFullDnsName.
    rewrite (normalized_dotted name He).
    rewrite (normalized_dotted (name ++ ".") (ends_with_dot_app name)).
    rewrite H1, H2. cbn [bind].
    destruct (terminateDomain_others r1) as (Ei1 & Es1 & Eh1 & Eu1).
    destruct (terminateDomain_others r2) as (Ei2 & Es2 & Eh2 & Eu2).
    rewrite Ei1, Es1, Eh1, Eu1, Ei2, Es2, Eh2, Eu2.
    rewrite !terminateDomain_domain, Hd, ends_with_dot_app.
    assert (Hdom : (if NameEndsWithDot (mDomain r1) then mDomain r1
                    else mDomain r1 ++ ".") =
                   (if empty (mDomain r1) then "." else mDomain r1)).
    { destruct Hrest as [E|E].
      - now rewrite E.
      - rewrite (proj2 (ends_with_dot_last _) E).
        destruct (mDomain r1); [discriminate | reflexivity]. }
    rewrite Hdom. repeat split; try assumption.
    + now apply Hservice.
    + now apply Hservice.
    + intros Hz. apply Hsub.
      destruct (mDomain r1); [reflexivity | exact Hz].
Qed.

Lemma split_extra_trailing_dot_witness :
  (fits ("host.example.com" ++ ".") /\
   NameEndsWithDot "host.example.com" = false /\
   SplitFullDnsName ("host.example.com" ++ ".") =
     SplitFullDnsName "host.example.com") /\
  (fits ("host.example.com." ++ ".") /\
   NameEndsWithDot "host.example.com." = true /\
   exists n1 n2,
     SplitFullDnsName "host.example.com." = Returns n1 /\
     SplitFullDnsName ("host.example.com." ++ ".") = Returns n2 /\
     mHostName n2 = mHostName n1).
Proof.
  assert (H1 : fits ("host.example.com" ++ "."))
    by (unfold fits, size, npos, modulus; simpl; lia).
  assert (H2 : fits ("host.example.com." ++ "."))
    by (unfold fits, size, npos, modulus; simpl; lia).
  split.
  - split; [exact H1|]. split; [reflexivity|].
    exact (proj1 (split_extra_trailing_dot "host.example.com" H1) eq_refl).
  - split; [exact H2|]. split; [reflexivity|].
    destruct (proj2 (split_extra_trailing_dot "host.example.com." H2) eq_refl)
      as (n1 & n2 & front & rest & E1 & E2 & _ & _ & _ & Eh & _).
    exists n1, n2. repeat split; assumption.
Defined.

Lemma split_extra_trailing_dot_changes_domain :
  NameEndsWithDot "host.example.com." = true /\
  SplitFullDnsName "host.example.com." =
    Returns {| mInstanceName := ""; mServiceName := ""; mHostName := "host";
               mSubtypes := []; mDomain := "example.com." |} /\
  SplitFullDnsName ("host.example.com." ++ ".") =
    Returns {| mInstanceName := ""; mServiceName := ""; mHostName := "host";
               mSubtypes := []; mDomain := "example.com.." |} /\
  SplitFullDnsName ("host.example.com." ++ ".") <>
    SplitFullDnsName "host.example.com.".
Proof.
  repeat split. vm_compute. discriminate.
Qed.

(** C3.  [SplitFullDnsName] returns a [DnsNameInfo] for every name: no
    [substr] throws and the assertion of the non-service branch holds,
    since the first '.' of the normalized name is always found. *)
Theorem SplitFullDnsName_total (aName : string) :
  fits (aName ++ ".") ->
  (exists nameInfo, SplitFullDnsName aName = Returns nameInfo) /\
  NameEndsWithDot (normalized aName) = true /\
  find_first_of (normalized aName) "." 0 <> npos.
Proof.
  intros Hf. split; [|split].
  - destruct (SplitFullDnsName_shape aName Hf) as (raw & _ & H & _). eauto.
  - apply normalized_ends.
  - pose proof (normalized_fits aName Hf) as Hs.
    pose proof (normalized_ends aName) as Hl. apply ends_with_dot_last in Hl.
    change 0 with (Z.of_nat 0). rewrite find_first_of_nat by lia.
    rewrite drop_0.
    destruct (index_of "." (normalized aName)) as [i|] eqn:E.
    + destruct (index_of_some _ _ _ E) as (Hi & _ & _).
      destruct (position_in_range _ i Hs Hi) as [_ H].
      now apply Z.eqb_neq in H.
    + apply index_of_none in E. apply last_count_pos in Hl. lia.
Qed.

Lemma SplitFullDnsName_total_witness :
  fits ("" ++ ".") /\
  ((exists nameInfo, SplitFullDnsName "" = Returns nameInfo) /\
   NameEndsWithDot (normalized "") = true /\
   find_first_of (normalized "") "." 0 <> npos).
Proof.
  assert (H : fits ("" ++ ".")) by (unfold fits, size, npos, modulus; simpl; lia).
  split; [exact H | exact (SplitFullDnsName_total "" H)].
Defined.

(** C4.  [SplitSubtypes] appends to the list, without touching what it
    holds, one entry per ',' of the fragment: the segments that follow the
    first ',', in order and verbatim.  That is so while the number of
    commas fits the [int] loop counter; with 2147483648 commas the counter
    starts negative and nothing is appended. *)
Theorem SplitSubtypes_entries :
  (forall (aSubtypes : string) (aSubtypesList : list string),
     fits aSubtypes -> StdString.count aSubtypes "," <= Int.max ->
     exists first entries,
       SplitSubtypes aSubtypes aSubtypesList =
         Returns (aSubtypesList ++ entries)%list /\
       Z.of_nat (List.length entries) = StdString.count aSubtypes "," /\
       Str.split "," aSubtypes = first :: entries /\
       String.concat "," (first :: entries) = aSubtypes /\
       Forall (fun seg => Str.count "," seg = 0%nat) (first :: entries)) /\
  (SplitSubtypes ",a,b,c" ["x"] = Returns ["x"; "a"; "b"; "c"] /\
   SplitSubtypes ",a" [] = Returns ["a"] /\
   SplitSubtypes ",a,,b," [] = Returns ["a"; ""; "b"; ""] /\
   SplitSubtypes "abc" ["x"] = Returns ["x"]) /\
  (StdString.count (Str.replicate (Z.to_nat 2147483648) ",") "," =
     2147483648 /\
   forall aSubtypesList,
     SplitSubtypes (Str.replicate (Z.to_nat 2147483648) ",") aSubtypesList =
       Returns aSubtypesList).
Proof.
  split; [|split].
  - intros aSubtypes aSubtypesList Hf Hc.
    pose proof (split_length "," aSubtypes) as Hlen.
    pose proof (split_concat "," aSubtypes) as Hcat.
    pose proof (split_segments "," aSubtypes) as Hseg.
    pose proof (SplitSubtypes_exact aSubtypes aSubtypesList Hf Hc) as Hex.
    destruct (Str.split "," aSubtypes) as [|first entries];
      [discriminate|].
    exists first, entries. cbn [tl] in Hex. simpl in Hlen.
    unfold StdString.count. repeat split; try assumption. lia.
  - vm_compute. repeat split.
  - split.
    + unfold StdString.count. rewrite count_replicate.
      now rewrite Z2Nat.id by lia.
    + intros aSubtypesList. unfold SplitSubtypes, StdString.count.
      rewrite count_replicate, Z2Nat.id by lia.
      change (Int.of_Z 2147483648) with (-2147483648).
      reflexivity.
Qed.

Lemma SplitSubtypes_entries_witness :
  fits ",a,b,c" /\ StdString.count ",a,b,c" "," <= Int.max /\
  exists entries,
    SplitSubtypes ",a,b,c" ["x"] = Returns (["x"] ++ entries)%list /\
    Z.of_nat (List.length entries) = StdString.count ",a,b,c" ",".
Proof.
  assert (Hf : fits ",a,b,c") by (unfold fits, size, npos, modulus; simpl; lia).
  assert (Hc : StdString.count ",a,b,c" "," <= Int.max)
    by (unfold StdString.count, Int.max; simpl; lia).
  split; [exact Hf|]. split; [exact Hc|].
  destruct (proj1 SplitSubtypes_entries ",a,b,c" ["x"] Hf Hc)
    as (first & entries & H1 & H2 & _).
  exists entries. split; assumption.
Defined.

(** C5.  The domain [SplitFullDnsName] returns is never empty and ends
    with '.'. *)
Theorem domain_ends_with_dot (aName : string) :
  fits (aName ++ ".") ->
  exists nameInfo,
    SplitFullDnsName aName = Returns nameInfo /\
    mDomain nameInfo <> "" /\
    NameEndsWithDot (mDomain nameInfo) = true /\
    exists front, mDomain nameInfo = front ++ ".".
Proof.
  intros Hf. destruct (SplitFullDnsName_shape aName Hf) as (raw & _ & H & _).
  exists (terminateDomain raw). split; [exact H|].
  pose proof (terminateDomain_ends raw) as He.
  split; [|split; [exact He | now apply ends_with_dot_iff]].
  intros E. rewrite E in He. discriminate.
Qed.

Lemma domain_ends_with_dot_witness :
  fits ("host" ++ ".") /\
  exists nameInfo,
    SplitFullDnsName "host" = Returns nameInfo /\
    mDomain nameInfo <> "" /\
    NameEndsWithDot (mDomain nameInfo) = true /\
    exists front, mDomain nameInfo = front ++ ".".
Proof.
  assert (H : fits ("host" ++ ".")) by (unfold fits, size, npos, modulus; simpl; lia).
  split; [exact H | exact (domain_ends_with_dot "host" H)].
Defined.

(** C6.  The returned [DnsNameInfo] never has both a host name and a
    service name, has an instance name only next to a service name, and so
    satisfies at most one of [IsHost], [IsService], [IsServiceInstance]. *)
Theorem shapes_exclusive (aName : string) :
  fits (aName ++ ".") ->
  exists nameInfo,
    SplitFullDnsName aName = Returns nameInfo /\
    ~ (mHostName nameInfo <> "" /\ mServiceName nameInfo <> "") /\
    (mInstanceName nameInfo <> "" -> mServiceName nameInfo <> "") /\
    (Nat.b2n (IsHost nameInfo) + Nat.b2n (IsService nameInfo) +
     Nat.b2n (IsServiceInstance nameInfo) <= 1)%nat.
Proof.
  intros Hf.
  destruct (SplitFullDnsName_shape aName Hf) as (raw & _ & H & Hshape).
  exists (terminateDomain raw). split; [exact H|].
  destruct (terminateDomain_others raw) as (Ei & Es & Eh & _).
  unfold IsHost, IsService, IsServiceInstance. rewrite Ei, Es, Eh.
  destruct Hshape as [[Hs Hi]|[Hh Hs]].
  - rewrite Hs, Hi. repeat split.
    + intros [_ N]. now apply N.
    + intros N. now destruct N.
    + destruct (empty (mHostName raw)); simpl; lia.
  - rewrite Hh. repeat split.
    + intros [N _]. now apply N.
    + intros _. exact Hs.
    + simpl. destruct (empty (mServiceName raw)), (empty (mInstanceName raw));
        simpl; lia.
Qed.

Lemma shapes_exclusive_witness :
  fits ("myinstance._service._udp.example.com." ++ ".") /\
  exists nameInfo,
    SplitFullDnsName "myinstance._service._udp.example.com." =
      Returns nameInfo /\
    ~ (mHostName nameInfo <> "" /\ mServiceName nameInfo <> "") /\
    (mInstanceName nameInfo <> "" -> mServiceName nameInfo <> "") /\
    (Nat.b2n (IsHost nameInfo) + Nat.b2n (IsService nameInfo) +
     Nat.b2n (IsServiceInstance nameInfo) <= 1)%nat.
Proof.
  assert (H : fits ("myinstance._service._udp.example.com." ++ "."))
    by (unfold fits, size, npos, modulus; simpl; lia).
  split; [exact H | exact (shapes_exclusive _ H)].
Defined.

(** C7.  The name is split at the last "._udp"; at the last "._tcp" only
    when no "._udp" occurs, wherever the "._tcp" stands; and with neither
    marker the name is a host name up to its first '.', the rest being the
    domain. *)
Theorem transport_marker_order :
  (forall aName : string,
     fits (aName ++ ".") ->
     let fullName := normalized aName in
     (forall i,
        occurs_at "._udp" fullName i ->
        (forall j, occurs_at "._udp" fullName j -> (j <= i)%nat) ->
        transportPosition fullName = Z.of_nat i /\
        transportPosition fullName <> npos) /\
     ((forall j, ~ occurs_at "._udp" fullName j) ->
      forall i,
        occurs_at "._tcp" fullName i ->
        (forall j, occurs_at "._tcp" fullName j -> (j <= i)%nat) ->
        transportPosition fullName = Z.of_nat i /\
        transportPosition fullName <> npos) /\
     ((forall j, ~ occurs_at "._udp" fullName j) ->
      (forall j, ~ occurs_at "._tcp" fullName j) ->
      transportPosition fullName = npos /\
      exists host rest,
        fullName = host ++ "." ++ rest /\
        Str.count "." host = 0%nat /\
        splitBranches fullName =
          Returns {| mInstanceName := ""; mServiceName := "";
                     mHostName := host; mSubtypes := [];
                     mDomain := rest |} /\
        SplitFullDnsName aName =
          Returns (terminateDomain
                     {| mInstanceName := ""; mServiceName := "";
                        mHostName := host; mSubtypes := [];
                        mDomain := rest |}))) /\
  (occurs_at "._udp" (normalized "a._udp.b._tcp.c") 1 /\
   occurs_at "._tcp" (normalized "a._udp.b._tcp.c") 8 /\
   transportPosition (normalized "a._udp.b._tcp.c") = 1 /\
   SplitFullDnsName "a._udp.b._tcp.c" =
     Returns {| mInstanceName := ""; mServiceName := "a._udp";
                mHostName := ""; mSubtypes := [];
                mDomain := "b._tcp.c." |}) /\
  SplitFullDnsName "host.example.com" =
    Returns {| mInstanceName := ""; mServiceName := ""; mHostName := "host";
               mSubtypes := []; mDomain := "example.com." |}.
Proof.
  split; [|split].
  - intros aName Hf fullName.
    pose proof (normalized_fits aName Hf) as Hs.
    pose proof (normalized_ends aName) as Hl. apply ends_with_dot_last in Hl.
    fold fullName in Hs, Hl.
    assert (Hin : forall pat i, String.length pat = 5%nat ->
              occurs_at pat fullName i ->
              Z.of_nat i <> npos).
    { intros pat i Hp Hi. apply occurs_at_bound in Hi.
      destruct (position_in_range fullName i Hs ltac:(lia)) as [_ H].
      now apply Z.eqb_neq in H. }
    split; [|split].
    + intros i Hi Hmax. rewrite (transportPosition_nat _ Hs).
      rewrite (last_occurrence_intro _ _ _ Hi Hmax). cbn [position].
      split; [reflexivity | exact (Hin "._udp" i eq_refl Hi)].
    + intros Hno i Hi Hmax. rewrite (transportPosition_nat _ Hs).
      rewrite (last_occurrence_absent _ _ Hno).
      rewrite (last_occurrence_intro _ _ _ Hi Hmax). cbn [position].
      split; [reflexivity | exact (Hin "._tcp" i eq_refl Hi)].
    + intros Hudp Htcp.
      assert (Ht : transportPosition fullName = npos).
      { rewrite (transportPosition_nat _ Hs).
        now rewrite (last_occurrence_absent _ _ Hudp),
          (last_occurrence_absent _ _ Htcp). }
      split; [exact Ht|].
      destruct (splitBranches_host fullName Hs Hl Ht) as (i & Ei & Hb).
      destruct (index_of_some _ _ _ Ei) as (_ & Hc & Hd).
      exists (take i fullName), (drop (S i) fullName). repeat split.
      * rewrite <- (take_drop i fullName) at 1. now rewrite Hd.
      * exact Hc.
      * exact Hb.
      * unfold SplitFullDnsName. fold fullName. now rewrite Hb.
  - repeat split.
    + exists "a", ".b._tcp.c.". now split.
    + exists "a._udp.b", ".c.". now split.
  - reflexivity.
Qed.

Lemma transport_marker_order_witness :
  fits ("host.example.com" ++ ".") /\
  transportPosition (normalized "host.example.com") = npos.
Proof.
  assert (H : fits ("host.example.com" ++ "."))
    by (unfold fits, size, npos, modulus; simpl; lia).
  split; [exact H|].
  destruct (proj1 transport_marker_order "host.example.com" H) as (_ & _ & Hn).
  apply Hn.
  - intros j Hj. apply occurs_at_iff in Hj as [Hj Hp].
    simpl in Hj.
    do 18 (destruct j as [|j]; [discriminate Hp|]). lia.
  - intros j Hj. apply occurs_at_iff in Hj as [Hj Hp].
    simpl in Hj.
    do 18 (destruct j as [|j]; [discriminate Hp|]). lia.
Defined.

(** C8.  On the service branch, with the marker at [t]: when no '.' stands
    before the marker, the service name is the first [t + 5] characters of
    the normalized name and there is no instance name; otherwise, [d] being
    the last '.' before the marker, the instance name is the text before
    [d] and the service name the characters [d + 1 .. t + 4].  The two
    names of the spec split accordingly. *)
Theorem service_fields :
  (forall (aName : string) (t : nat),
     fits (aName ++ ".") ->
     let fullName := normalized aName in
     transportPosition fullName = Z.of_nat t ->
     transportPosition fullName <> npos ->
     exists nameInfo,
       SplitFullDnsName aName = Returns nameInfo /\
       mHostName nameInfo = "" /\
       ((forall e, (e < t)%nat -> get e fullName <> Some "."%char) ->
        mInstanceName nameInfo = "" /\
        mServiceName nameInfo = substring 0 (t + 5) fullName /\
        String.length (mServiceName nameInfo) = (t + 5)%nat) /\
       (forall d,
          (d < t)%nat -> get d fullName = Some "."%char ->
          (forall e, (d < e < t)%nat -> get e fullName <> Some "."%char) ->
          mInstanceName nameInfo = substring 0 d fullName /\
          String.length (mInstanceName nameInfo) = d /\
          mServiceName nameInfo = substring (S d) (t + 4 - d) fullName /\
          String.length (mServiceName nameInfo) = (t + 4 - d)%nat)) /\
  SplitFullDnsName "_service._udp.example.com." =
    Returns {| mInstanceName := ""; mServiceName := "_service._udp";
               mHostName := ""; mSubtypes := [];
               mDomain := "example.com." |} /\
  SplitFullDnsName "myinstance._service._udp.example.com." =
    Returns {| mInstanceName := "myinstance"; mServiceName := "_service._udp";
               mHostName := ""; mSubtypes := [];
               mDomain := "example.com." |}.
Proof.
  split; [|split; reflexivity].
  intros aName t Hf fullName Ht Hne.
  pose proof (normalized_fits aName Hf) as Hs.
  pose proof (normalized_ends aName) as Hl. apply ends_with_dot_last in Hl.
  fold fullName in Hs, Hl.
  assert (Hb : (t + 5 <= String.length fullName)%nat).
  { destruct (transportPosition_cases fullName Hs)
      as [(Hn & _)|(t' & Ht' & Hb & _)]; [contradiction|].
    rewrite Ht in Ht'. apply Nat2Z.inj in Ht'. now subst t'. }
  destruct (splitBranches_service fullName Hs Hl t Ht Hb)
    as (j & subs & _ & _ & _ & Hr).
  eexists. split.
  { unfold SplitFullDnsName. fold fullName. rewrite Hr. reflexivity. }
  match goal with
  | |- context [terminateDomain ?r] =>
      destruct (terminateDomain_others r) as (Ei & Es & Eh & _)
  end.
  rewrite Ei, Es, Eh. clear Ei Es Eh. split; [|split].
  - now destruct (last_index_of "." (take t fullName)).
  - intros Hnone.
    assert (E : last_index_of "." (take t fullName) = None).
    { apply last_index_of_none, count_zero_intro. intros e He.
      rewrite take_length in He. rewrite get_take by lia. apply Hnone. lia. }
    rewrite E. cbn [mInstanceName mServiceName].
    rewrite substring_take_drop, drop_0, take_length.
    repeat split. lia.
  - intros d Hd Hdot Hafter.
    assert (E : last_index_of "." (take t fullName) = Some d).
    { apply last_index_of_intro.
      - now rewrite get_take.
      - intros e He. rewrite take_length in He.
        rewrite get_take by lia. apply Hafter. lia. }
    rewrite E. cbn [mInstanceName mServiceName].
    rewrite !substring_take_drop, drop_0, !take_length, drop_length.
    repeat split; lia.
Qed.

Lemma service_fields_witness :
  fits ("x.y._tcp.local" ++ ".") /\
  exists nameInfo,
    SplitFullDnsName "x.y._tcp.local" = Returns nameInfo /\
    mInstanceName nameInfo = "x" /\ mServiceName nameInfo = "y._tcp".
Proof.
  assert (H : fits ("x.y._tcp.local" ++ "."))
    by (unfold fits, size, npos, modulus; simpl; lia).
  split; [exact H|].
  destruct (proj1 service_fields "x.y._tcp.local" 3%nat H)
    as (nameInfo & Hn & _ & _ & Hi).
  - reflexivity.
  - discriminate.
  - exists nameInfo. split; [exact Hn|].
    destruct (Hi 1%nat) as (E1 & _ & E2 & _).
    + lia.
    + reflexivity.
    + intros e He. assert (e = 2%nat) as -> by lia. discriminate.
    + split; [exact E1 | exact E2].
Defined.

(** C9.  Each extractor returns normally for every name; it reports
    [OTBR_ERROR_INVALID_ARGS] exactly when the split name fails its
    predicate, leaving the outputs alone, and otherwise reports
    [OTBR_ERROR_NONE] with the fields of its shape. *)
Theorem extractors_invalid_args_only (aFullName : string) :
  fits (aFullName ++ ".") ->
  exists nameInfo,
    SplitFullDnsName aFullName = Returns nameInfo /\
    (forall aHostName aDomain,
       SplitFullHostName aFullName aHostName aDomain =
       Returns (if IsHost nameInfo
                then (OTBR_ERROR_NONE, (mHostName nameInfo, mDomain nameInfo))
                else (OTBR_ERROR_INVALID_ARGS, (aHostName, aDomain)))) /\
    (forall aType aDomain,
       SplitFullServiceName aFullName aType aDomain =
       Returns (if IsService nameInfo
                then (OTBR_ERROR_NONE,
                      (mServiceName nameInfo, mDomain nameInfo))
                else (OTBR_ERROR_INVALID_ARGS, (aType, aDomain)))) /\
    (forall aInstanceName aType aSubtypes aDomain,
       SplitFullServiceInstanceName aFullName aInstanceName aType aSubtypes
         aDomain =
       Returns (if IsServiceInstance nameInfo
                then (OTBR_ERROR_NONE,
                      (mInstanceName nameInfo, mServiceName nameInfo,
                       mSubtypes nameInfo, mDomain nameInfo))
                else (OTBR_ERROR_INVALID_ARGS,
                      (aInstanceName, aType, aSubtypes, aDomain)))).
Proof.
  intros Hf. destruct (SplitFullDnsName_shape aFullName Hf) as (raw & _ & H & _).
  exists (terminateDomain raw). split; [exact H|].
  unfold SplitFullHostName, SplitFullServiceName, SplitFullServiceInstanceName.
  rewrite H. cbn [bind]. repeat split; intros.
  - now destruct (IsHost (terminateDomain raw)).
  - now destruct (IsService (terminateDomain raw)).
  - now destruct (IsServiceInstance (terminateDomain raw)).
Qed.

Lemma extractors_invalid_args_only_witness :
  fits ("_service._udp.example.com." ++ ".") /\
  SplitFullHostName "_service._udp.example.com." "h" "d" =
    Returns (OTBR_ERROR_INVALID_ARGS, ("h", "d")) /\
  SplitFullServiceName "_service._udp.example.com." "t" "d" =
    Returns (OTBR_ERROR_NONE, ("_service._udp", "example.com.")).
Proof.
  assert (H : fits ("_service._udp.example.com." ++ "."))
    by (unfold fits, size, npos, modulus; simpl; lia).
  split; [exact H|].
  destruct (extractors_invalid_args_only _ H) as (nameInfo & Hn & Hh & Hs & _).
  rewrite Hh, Hs.
  assert (E : nameInfo =
              {| mInstanceName := ""; mServiceName := "_service._udp";
                 mHostName := ""; mSubtypes := [];
                 mDomain := "example.com." |}).
  { vm_compute in Hn. now injection Hn. }
  rewrite E. split; reflexivity.
Defined.

(** C10.  An extractor that reports [OTBR_ERROR_INVALID_ARGS] hands every
    output back as it was passed in. *)
Theorem extractor_failure_keeps_outputs (aFullName : string) :
  fits (aFullName ++ ".") ->
  (forall aHostName aDomain,
     exists error outputs,
       SplitFullHostName aFullName aHostName aDomain =
         Returns (error, outputs) /\
       (error = OTBR_ERROR_INVALID_ARGS -> outputs = (aHostName, aDomain))) /\
  (forall aType aDomain,
     exists error outputs,
       SplitFullServiceName aFullName aType aDomain =
         Returns (error, outputs) /\
       (error = OTBR_ERROR_INVALID_ARGS -> outputs = (aType, aDomain))) /\
  (forall aInstanceName aType aSubtypes aDomain,
     exists error outputs,
       SplitFullServiceInstanceName aFullName aInstanceName aType aSubtypes
         aDomain = Returns (error, outputs) /\
       (error = OTBR_ERROR_INVALID_ARGS ->
        outputs = (aInstanceName, aType, aSubtypes, aDomain))).
Proof.
  intros Hf. destruct (SplitFullDnsName_shape aFullName Hf) as (raw & _ & H & _).
  unfold SplitFullHostName, SplitFullServiceName, SplitFullServiceInstanceName.
  rewrite H. cbn [bind]. repeat split; intros.
  - destruct (IsHost (terminateDomain raw)); cbn [negb];
      do 2 eexists; (split; [reflexivity|]); [discriminate | reflexivity].
  - destruct (IsService (terminateDomain raw)); cbn [negb];
      do 2 eexists; (split; [reflexivity|]); [discriminate | reflexivity].
  - destruct (IsServiceInstance (terminateDomain raw)); cbn [negb];
      do 2 eexists; (split; [reflexivity|]); [discriminate | reflexivity].
Qed.

Lemma extractor_failure_keeps_outputs_witness :
  fits ("host.example.com" ++ ".") /\
  exists error outputs,
    SplitFullServiceInstanceName "host.example.com" "i" "t" ["s"] "d" =
      Returns (error, outputs) /\
    (error = OTBR_ERROR_INVALID_ARGS -> outputs = ("i", "t", ["s"], "d")).
Proof.
  assert (H : fits ("host.example.com" ++ "."))
    by (unfold fits, size, npos, modulus; simpl; lia).
  split; [exact H|].
  destruct (extractor_failure_keeps_outputs _ H) as (_ & _ & Hi).
  exact (Hi "i" "t" ["s"] "d").
Defined.

(** * Further properties *)

(** ** More on strings *)

Module MoreStrFacts.

Lemma app_empty_r (s : string) : s ++ "" = s.
Proof. induction s as [|a s IH]; simpl; [reflexivity | now rewrite IH]. Qed.

Lemma app_assoc (s t u : string) : (s ++ t) ++ u = s ++ (t ++ u).
Proof. induction s as [|a s IH]; simpl; [reflexivity | now rewrite IH]. Qed.

Lemma drop_app_ge (n : nat) (s t : string) :
  (String.length s <= n)%nat -> drop n (s ++ t) = drop (n - String.length s) t.
Proof.
  revert n; induction s as [|a s IH]; intros n H; simpl in *.
  - now rewrite Nat.sub_0_r.
  - destruct n as [|n]; [lia|]. simpl. apply IH. lia.
Qed.

Lemma take_app_length (s t : string) : take (String.length s) (s ++ t) = s.
Proof.
  induction s as [|a s IH]; simpl; [now rewrite ?take_0 | now rewrite IH].
Qed.

Lemma index_of_intro (c : ascii) (pre post : string) :
  count c pre = 0%nat ->
  index_of c (pre ++ String c post) = Some (String.length pre).
Proof.
  induction pre as [|a pre IH]; simpl; intros H.
  - now rewrite Ascii.eqb_refl.
  - destruct (Ascii.eqb a c); [discriminate|]. now rewrite (IH H).
Qed.

Lemma last_index_of_app (c : ascii) (pre post : string) :
  count c post = 0%nat ->
  last_index_of c (pre ++ String c post) = Some (String.length pre).
Proof.
  intros H. induction pre as [|a pre IH]; simpl.
  - apply last_index_of_none in H. now rewrite H, Ascii.eqb_refl.
  - now rewrite IH.
Qed.

Lemma split_app_sep (c : ascii) (pre rest : string) :
  count c pre = 0%nat ->
  split c (pre ++ String c rest) = pre :: split c rest.
Proof.
  induction pre as [|a pre IH]; simpl; intros H.
  - now rewrite Ascii.eqb_refl.
  - destruct (Ascii.eqb a c); [discriminate|]. now rewrite (IH H).
Qed.

Lemma Forall_firstn_keep {A : Type} (P : A -> Prop) (n : nat) (l : list A) :
  Forall P l -> Forall P (firstn n l).
Proof.
  intros H. revert n; induction H as [|x l Hx Hl IH]; intros [|n]; simpl;
    constructor; auto.
Qed.

Lemma firstn_split_segments (c : ascii) (s : string) (n : nat) :
  Forall (fun seg => count c seg = 0%nat) (firstn n (tl (split c s))).
Proof.
  pose proof (split_segments c s) as H.
  destruct (split c s) as [|seg segs]; simpl.
  - rewrite firstn_nil. constructor.
  - inversion H; subst. now apply Forall_firstn_keep.
Qed.

Lemma take_take (m n : nat) (s : string) :
  (m <= n)%nat -> take m (take n s) = take m s.
Proof.
  revert m n; induction s as [|a s IH]; intros [|m] [|n] H; simpl;
    try reflexivity; try lia.
  rewrite IH; [reflexivity | lia].
Qed.

Lemma take_succ (d : nat) (s : string) (c : ascii) :
  get d s = Some c -> take (S d) s = take d s ++ String c "".
Proof.
  revert d; induction s as [|a s IH]; intros d H; [discriminate|].
  destruct d as [|d]; simpl in *.
  - injection H as ->. now rewrite ?take_0.
  - now rewrite (IH d H).
Qed.

Lemma occurs_at_split (pat s : string) (i : nat) :
  occurs_at pat s i ->
  s = take i s ++ pat ++ drop (i + String.length pat) s.
Proof.
  intros (pre & post & -> & <-).
  rewrite take_app_length, <- app_assoc, drop_app_ge
    by (rewrite length_app; lia).
  rewrite length_app, app_assoc.
  replace (String.length pre + String.length pat -
           (String.length pre + String.length pat))%nat with 0%nat by lia.
  now rewrite drop_0.
Qed.

Lemma get_app_l (j : nat) (a b : string) :
  (j < String.length a)%nat -> get j (a ++ b) = get j a.
Proof.
  revert j; induction a as [|c a IH]; intros j H; simpl in *; [lia|].
  destruct j as [|j]; [reflexivity | apply IH; lia].
Qed.

Lemma get_app_r (j : nat) (a b : string) :
  (String.length a <= j)%nat -> get j (a ++ b) = get (j - String.length a) b.
Proof.
  revert j; induction a as [|c a IH]; intros j H; simpl in *.
  - now rewrite Nat.sub_0_r.
  - destruct j as [|j]; [lia | apply IH; lia].
Qed.

Lemma prefix_app_long (pat x b : string) :
  (String.length pat <= String.length x)%nat ->
  prefix pat (x ++ b) = prefix pat x.
Proof.
  revert x; induction pat as [|c pat IH]; intros x H.
  - now destruct x, b.
  - destruct x as [|d x]; simpl in *; [lia|].
    destruct (ascii_dec c d); [apply IH; lia | reflexivity].
Qed.

(** An occurrence begins with the first character of the pattern. *)
Lemma occurs_at_head_char (c : ascii) (pat s : string) (j : nat) :
  occurs_at (String c pat) s j -> get j s = Some c.
Proof.
  intros (pre & post & -> & <-). rewrite get_app_r by lia.
  now rewrite Nat.sub_diag.
Qed.

Lemma occurs_at_suffix (pat a b : string) (j : nat) :
  occurs_at pat (a ++ b) j -> (String.length a <= j)%nat ->
  occurs_at pat b (j - String.length a).
Proof.
  rewrite !occurs_at_iff, length_app. intros [Hj Hp] Ha.
  rewrite drop_app_ge in Hp by assumption. split; [lia | exact Hp].
Qed.

Lemma occurs_at_prefix (pat a b : string) (j : nat) :
  occurs_at pat (a ++ b) j ->
  (j + String.length pat <= String.length a)%nat ->
  occurs_at pat a j.
Proof.
  rewrite !occurs_at_iff. intros [Hj Hp] Ha.
  rewrite drop_app, prefix_app_long in Hp by (rewrite ?drop_length; lia).
  split; [lia | exact Hp].
Qed.

(** Behind [a], an occurrence of a pattern that begins with [c] cannot
    begin in a stretch free of [c]. *)
Lemma occurs_at_behind (c : ascii) (pat a b rest : string) (j : nat) :
  occurs_at (String c pat) (a ++ b ++ rest) j ->
  (String.length a <= j)%nat -> count c b = 0%nat ->
  (String.length a + String.length b <= j)%nat /\
  occurs_at (String c pat) rest (j - String.length a - String.length b).
Proof.
  intros Hocc Ha Hb.
  assert (Hge : (String.length a + String.length b <= j)%nat).
  { destruct (Nat.le_gt_cases (String.length a + String.length b) j) as [H|H];
      [exact H|].
    apply occurs_at_head_char in Hocc.
    rewrite get_app_r, get_app_l in Hocc by lia.
    apply get_count_pos in Hocc. lia. }
  split; [exact Hge|].
  apply occurs_at_suffix in Hocc; [|exact Ha].
  apply occurs_at_suffix in Hocc; [exact Hocc | lia].
Qed.

Lemma drop_app_exact (n : nat) (a b : string) :
  n = String.length a -> drop n (a ++ b) = b.
Proof. intros ->. apply drop_app_length. Qed.

Lemma take_app_exact (n : nat) (a b : string) :
  n = String.length a -> take n (a ++ b) = a.
Proof. intros ->. apply take_app_length. Qed.

(** The first [c] of [s], told by what the positions hold. *)
Lemma index_of_first (c : ascii) (s : string) (k : nat) :
  get k s = Some c ->
  (forall e, (e < k)%nat -> get e s <> Some c) ->
  index_of c s = Some k.
Proof.
  revert k; induction s as [|a s IH]; intros k Hk Hbefore; [discriminate|].
  destruct k as [|k]; simpl in *.
  - injection Hk as ->. now rewrite Ascii.eqb_refl.
  - destruct (Ascii.eqb a c) eqn:E.
    + apply Ascii.eqb_eq in E; subst a. now destruct (Hbefore 0%nat ltac:(lia)).
    + rewrite (IH k Hk); [reflexivity|].
      intros e He. apply (Hbefore (S e)). lia.
Qed.

End MoreStrFacts.

(** ** [SplitSubtypes] on every fragment *)

Module MoreSubtypesFacts.
Import Names MoreStrFacts.

(** Run no more often than there are segments left, the loop pushes the
    first of them. *)
Lemma loop_prefix (n : nat) (s : string) (p : nat) (acc : list string) :
  fits s -> (p < String.length s)%nat ->
  (n <= S (count "," (drop (S p) s)))%nat ->
  SplitSubtypes_loop n s (Z.of_nat p) acc =
  Returns (acc ++ firstn n (split "," (drop (S p) s)))%list.
Proof.
  intros Hs. revert p acc; induction n as [|n IH]; intros p acc Hp Hn.
  - simpl. now rewrite app_nil_r.
  - rewrite loop_step by assumption.
    destruct (index_of "," (drop (S p) s)) as [i|] eqn:E.
    + destruct (index_of_some _ _ _ E) as (Hi & Hc & Hd).
      rewrite drop_length in Hi.
      assert (Hdd : drop (S i) (drop (S p) s) = drop (S (S p + i)) s).
      { rewrite drop_drop. f_equal. lia. }
      assert (Hcnt : count "," (drop (S p) s) =
                     S (count "," (drop (S (S p + i)) s))).
      { rewrite <- (take_drop i (drop (S p) s)) at 1.
        rewrite count_app, Hc, Hd, Hdd. cbn [count].
        now rewrite Ascii.eqb_refl. }
      rewrite (split_at _ _ _ E), Hdd. cbn [firstn].
      rewrite IH; [now rewrite <- List.app_assoc | lia | lia].
    + rewrite (split_whole _ _ E). apply index_of_none in E.
      rewrite E in Hn. assert (n = 0%nat) as -> by lia. reflexivity.
Qed.

(** Narrowing a count to [int] never makes it larger. *)
Lemma int_of_count_le (k : nat) : (Z.to_nat (Int.of_Z (Z.of_nat k)) <= k)%nat.
Proof.
  unfold Int.of_Z, Int.max, Int.modulus.
  pose proof (Z.mod_pos_bound (Z.of_nat k) 4294967296 ltac:(lia)) as Hb.
  pose proof (Z.mod_le (Z.of_nat k) 4294967296 ltac:(lia) ltac:(lia)) as Hle.
  destruct (Z.leb_spec (Z.of_nat k mod 4294967296) 2147483647); lia.
Qed.

Lemma SplitSubtypes_formula (s : string) (l : list string) :
  fits s ->
  SplitSubtypes s l =
  Returns (l ++ firstn (Z.to_nat (Int.of_Z (StdString.count s ",")))
                  (tl (split "," s)))%list.
Proof.
  intros Hs. unfold SplitSubtypes, StdString.count. rewrite first_comma.
  pose proof (int_of_count_le (count "," s)) as Hle.
  destruct (index_of "," s) as [p|] eqn:E.
  - destruct (index_of_some _ _ _ E) as (Hp & Hz & Hd).
    rewrite (split_at _ _ _ E). cbn [tl position].
    apply loop_prefix; try assumption.
    rewrite <- (take_drop p s) in Hle at 2.
    rewrite count_app, Hz, Hd in Hle. cbn [count] in Hle.
    rewrite Ascii.eqb_refl in Hle. exact Hle.
  - rewrite (split_whole _ _ E). apply index_of_none in E.
    rewrite E in *. assert (Z.to_nat (Int.of_Z (Z.of_nat 0)) = 0%nat) as ->
      by lia.
    simpl. now rewrite app_nil_r.
Qed.

Lemma fits_shorter (s t : string) :
  (String.length s <= String.length t)%nat -> fits t -> fits s.
Proof. unfold fits, size. lia. Qed.

(** A segment followed by joined subtypes splits into that segment and
    the subtypes. *)
Lemma split_joined (s : string) (subtypes : list string) :
  count "," s = 0%nat ->
  Forall (fun subtype => count "," subtype = 0%nat) subtypes ->
  split "," (s ++ joinSubtypes subtypes) = s :: subtypes.
Proof.
  intros Hs H. revert s Hs; induction H as [|x l Hx Hl IH]; intros s Hs.
  - simpl. rewrite app_empty_r. apply split_whole, index_of_none, Hs.
  - cbn [joinSubtypes fold_right].
    change ("," ++ x ++ fold_right (fun subtype rest => "," ++ subtype ++ rest)
                          "" l)
      with (String "," (x ++ joinSubtypes l)).
    rewrite (split_app_sep _ _ _ Hs). now rewrite (IH x Hx).
Qed.

Lemma count_joined (subtypes : list string) :
  Forall (fun subtype => count "," subtype = 0%nat) subtypes ->
  count "," (joinSubtypes subtypes) = List.length subtypes.
Proof.
  intros H. pose proof (split_joined "" subtypes eq_refl H) as E.
  pose proof (split_length "," (joinSubtypes subtypes)) as L.
  simpl in E. rewrite E in L. simpl in L. lia.
Qed.

Lemma SplitSubtypes_joinSubtypes (subtypes l : list string) :
  Forall (fun subtype => count "," subtype = 0%nat) subtypes ->
  Z.of_nat (List.length subtypes) <= Int.max ->
  fits (joinSubtypes subtypes) ->
  SplitSubtypes (joinSubtypes subtypes) l = Returns (l ++ subtypes)%list.
Proof.
  intros H Hn Hf. rewrite SplitSubtypes_exact; try assumption.
  - pose proof (split_joined "" subtypes eq_refl H) as E. simpl in E.
    now rewrite E.
  - unfold StdString.count. now rewrite count_joined.
Qed.

End MoreSubtypesFacts.

Import Names MoreStrFacts MoreSubtypesFacts.

(** X1.  On every fragment [SplitSubtypes] returns, and what it appends
    is the first [n] of the segments that follow the first ',', [n] being
    the number of commas narrowed to [int] (none when that is not
    positive); no entry holds a ','. *)
Theorem SplitSubtypes_every_fragment
    (aSubtypes : string) (aSubtypesList : list string) :
  fits aSubtypes ->
  let n := Z.to_nat (Int.of_Z (StdString.count aSubtypes ",")) in
  let entries := firstn n (tl (Str.split "," aSubtypes)) in
  SplitSubtypes aSubtypes aSubtypesList =
    Returns (aSubtypesList ++ entries)%list /\
  List.length entries = n /\
  Forall (fun entry => Str.count "," entry = 0%nat) entries.
Proof.
  intros Hs n entries. split; [|split].
  - apply SplitSubtypes_formula, Hs.
  - subst entries. apply firstn_length_le.
    pose proof (split_length "," aSubtypes) as Hl.
    pose proof (int_of_count_le (Str.count "," aSubtypes)) as Hle.
    fold (StdString.count aSubtypes ",") in Hle. fold n in Hle.
    destruct (Str.split "," aSubtypes); simpl in *; lia.
  - apply firstn_split_segments.
Qed.

Lemma SplitSubtypes_every_fragment_witness :
  fits "x,a,,b" /\
  SplitSubtypes "x,a,,b" ["y"] = Returns ["y"; "a"; ""; "b"].
Proof.
  assert (H : fits "x,a,,b") by (unfold fits, size, npos, modulus; simpl; lia).
  split; [exact H|].
  exact (proj1 (SplitSubtypes_every_fragment "x,a,,b" ["y"] H)).
Defined.

(** X2.  [SplitSubtypes] starts at the first ',': what stands before it
    in the fragment is dropped. *)
Theorem SplitSubtypes_skips_lead
    (lead rest : string) (aSubtypesList : list string) :
  Str.count "," lead = 0%nat ->
  fits (lead ++ "," ++ rest) ->
  SplitSubtypes (lead ++ "," ++ rest) aSubtypesList =
  SplitSubtypes ("," ++ rest) aSubtypesList.
Proof.
  intros Hlead Hf.
  assert (Hf' : fits ("," ++ rest)).
  { apply (fits_shorter _ (lead ++ "," ++ rest)); [|exact Hf].
    rewrite (length_app lead). lia. }
  rewrite !SplitSubtypes_formula by assumption.
  unfold StdString.count. rewrite count_app, Hlead.
  change ("," ++ rest) with (String "," rest).
  rewrite (split_app_sep _ _ _ Hlead). reflexivity.
Qed.

Lemma SplitSubtypes_skips_lead_witness :
  Str.count "," "lead" = 0%nat /\
  fits ("lead" ++ "," ++ "a,b") /\
  SplitSubtypes ("lead" ++ "," ++ "a,b") [] = SplitSubtypes ("," ++ "a,b") [].
Proof.
  assert (H : fits ("lead" ++ "," ++ "a,b"))
    by (unfold fits, size, npos, modulus; simpl; lia).
  split; [reflexivity|]. split; [exact H|].
  exact (SplitSubtypes_skips_lead "lead" "a,b" [] eq_refl H).
Defined.

(** X3.  Subtypes without commas, each written behind a ',', come back
    from [SplitSubtypes] as they were, in order, as long as their number
    fits the [int] counter. *)
Theorem SplitSubtypes_of_joined (subtypes aSubtypesList : list string) :
  Forall (fun subtype => Str.count "," subtype = 0%nat) subtypes ->
  Z.of_nat (List.length subtypes) <= Int.max ->
  fits (joinSubtypes subtypes) ->
  SplitSubtypes (joinSubtypes subtypes) aSubtypesList =
    Returns (aSubtypesList ++ subtypes)%list.
Proof. apply SplitSubtypes_joinSubtypes. Qed.

Lemma SplitSubtypes_of_joined_witness :
  joinSubtypes ["_S3"; ""; "_L840"] = ",_S3,,_L840" /\
  SplitSubtypes (joinSubtypes ["_S3"; ""; "_L840"]) ["x"] =
    Returns ["x"; "_S3"; ""; "_L840"].
Proof.
  split; [reflexivity|].
  apply (SplitSubtypes_of_joined ["_S3"; ""; "_L840"] ["x"]).
  - repeat constructor.
  - unfold Int.max. simpl. lia.
  - unfold fits, size, npos, modulus. simpl. lia.
Defined.

(** ** The parts of a name that holds a transport marker *)

Module MoreSplitFacts.
Import Names MoreStrFacts MoreSubtypesFacts.

(** The marker that stands at the transport position. *)
Lemma transportPosition_marker (s : string) (t : nat) :
  fits s -> transportPosition s = Z.of_nat t -> transportPosition s <> npos ->
  (t + 5 <= String.length s)%nat /\
  exists marker,
    (marker = "._udp" \/ marker = "._tcp") /\ occurs_at marker s t.
Proof.
  intros Hs Ht Hne.
  destruct (transportPosition_cases s Hs)
    as [(Hn & _)|(t' & Ht' & Hb & Hocc)]; [contradiction|].
  rewrite Ht in Ht'. apply Nat2Z.inj in Ht'. subst t'.
  split; [exact Hb|].
  destruct Hocc as [H|[_ H]]; apply last_occurrence_some in H as [H _]; eauto.
Qed.

Lemma domain_of_rest (m : nat) (s : string) :
  last s = Some "."%char ->
  (if NameEndsWithDot (drop m s) then drop m s else drop m s ++ ".") =
  (if empty (drop m s) then "." else drop m s).
Proof.
  intros Hl. destruct (drop_dotted m s Hl) as [E|E].
  - now rewrite E.
  - rewrite (proj2 (ends_with_dot_last _) E).
    destruct (drop m s); [discriminate | reflexivity].
Qed.

Lemma splitBranches_parts (s : string) (t : nat) :
  fits s -> last s = Some "."%char ->
  transportPosition s = Z.of_nat t -> transportPosition s <> npos ->
  exists raw front label marker mid rest,
    splitBranches s = Returns raw /\
    s = front ++ label ++ marker ++ mid ++ "." ++ rest /\
    String.length (front ++ label) = t /\
    (marker = "._udp" \/ marker = "._tcp") /\
    count "." label = 0%nat /\ count "." mid = 0%nat /\
    (front = "" /\ mInstanceName raw = "" \/
     front = mInstanceName raw ++ ".") /\
    mServiceName raw = label ++ marker /\
    mDomain raw = rest /\ (rest = "" \/ last rest = Some "."%char) /\
    mHostName raw = "".
Proof.
  intros Hs Hl Ht Hne.
  destruct (transportPosition_marker s t Hs Ht Hne)
    as (Hb & marker & Hm & Hocc).
  assert (Hmlen : String.length marker = 5%nat)
    by (destruct Hm as [-> | ->]; reflexivity).
  pose proof (occurs_at_split _ _ _ Hocc) as Hsplit. rewrite Hmlen in Hsplit.
  set (pre := take t s) in *. set (post := drop (t + 5) s) in *.
  assert (Hpre : String.length pre = t)
    by (unfold pre; rewrite take_length; lia).
  destruct (splitBranches_service s Hs Hl t Ht Hb)
    as (j & subs & Ej & Hj & _ & Hr).
  (* the first dot after the marker lies in [post] *)
  assert (Ej2 : exists j2, j = (4 + j2)%nat /\ index_of "." post = Some j2).
  { assert (Hd : exists tail, marker = String "." tail /\
                   index_of "." tail = None /\ String.length tail = 4%nat)
      by (destruct Hm as [-> | ->]; eexists; repeat split).
    destruct Hd as (tail & -> & Htail & Htl).
    assert (E : drop (S t) s = tail ++ post).
    { rewrite Hsplit at 1. rewrite drop_app_ge by lia.
      rewrite Hpre. replace (S t - t)%nat with 1%nat by lia. reflexivity. }
    rewrite E, (index_of_app_r _ _ _ Htail), Htl in Ej.
    destruct (index_of "." post) as [j2|]; [|discriminate].
    cbn [option_map] in Ej. injection Ej as <-.
    exists j2. split; reflexivity. }
  destruct Ej2 as (j2 & -> & Ej2).
  destruct (index_of_some _ _ _ Ej2) as (_ & Hmid & Hdrop).
  assert (Hpost : post = take j2 post ++ "." ++ drop (S j2) post).
  { rewrite <- (take_drop j2 post) at 1. now rewrite Hdrop. }
  assert (Hdom : drop (S (S t + (4 + j2))) s = drop (S j2) post).
  { unfold post. rewrite drop_drop. f_equal. lia. }
  rewrite Hdom in Hr.
  assert (Hrest : drop (S j2) post = "" \/
                  last (drop (S j2) post) = Some "."%char).
  { rewrite <- Hdom. now apply drop_dotted. }
  destruct (last_index_of "." (take t s)) as [d|] eqn:Ed; fold pre in Ed.
  - (* instance.service.domain *)
    destruct (last_index_of_some _ _ _ Ed) as (Hd & Hget & Hlab).
    rewrite Hpre in Hd.
    exists {| mInstanceName := take d s;
              mServiceName := take (t + 4 - d) (drop (S d) s);
              mHostName := ""; mSubtypes := subs;
              mDomain := drop (S j2) post |},
      (take (S d) pre), (drop (S d) pre), marker, (take j2 post),
      (drop (S j2) post).
    cbn [mInstanceName mServiceName mHostName mDomain].
    split; [exact Hr|]. split.
    { rewrite <- app_assoc, take_drop, <- Hpost. exact Hsplit. }
    split; [now rewrite take_drop|]. split; [exact Hm|].
    split; [exact Hlab|]. split; [exact Hmid|]. split.
    { right. rewrite (take_succ _ _ _ Hget). unfold pre.
      now rewrite take_take by lia. }
    split.
    { rewrite Hsplit at 1. rewrite drop_app by lia.
      rewrite <- app_assoc.
      replace (t + 4 - d)%nat
        with (String.length (drop (S d) pre ++ marker))
        by (rewrite length_app, drop_length, Hmlen; lia).
      apply take_app_length. }
    repeat split. exact Hrest.
  - (* service.domain *)
    apply last_index_of_none in Ed.
    exists {| mInstanceName := ""; mServiceName := take (t + 5) s;
              mHostName := ""; mSubtypes := subs;
              mDomain := drop (S j2) post |},
      "", pre, marker, (take j2 post), (drop (S j2) post).
    cbn [mInstanceName mServiceName mHostName mDomain].
    split; [exact Hr|]. split.
    { rewrite <- Hpost. exact Hsplit. }
    split; [exact Hpre|]. split; [exact Hm|].
    split; [exact Ed|]. split; [exact Hmid|]. split; [now left|].
    split.
    { rewrite Hsplit at 1. rewrite <- app_assoc.
      replace (t + 5)%nat with (String.length (pre ++ marker))
        by (rewrite length_app, Hmlen; lia).
      apply take_app_length. }
    repeat split. exact Hrest.
Qed.

(** Where the subtypes of a name with a marker come from. *)
Lemma splitBranches_subtypes (s : string) (t dp : nat) :
  fits s -> last s = Some "."%char ->
  transportPosition s = Z.of_nat t -> transportPosition s <> npos ->
  (t < dp)%nat -> get dp s = Some "."%char ->
  (forall e, (t < e < dp)%nat -> get e s <> Some "."%char) ->
  exists raw,
    splitBranches s = Returns raw /\
    (count "," s = 0%nat -> mSubtypes raw = []) /\
    (forall k,
       get k s = Some ","%char ->
       (forall e, (e < k)%nat -> get e s <> Some ","%char) ->
       SplitSubtypes
         (if (k <=? dp)%nat then substring k (dp - k) s
          else substring k (String.length s - k) s) [] =
       Returns (mSubtypes raw)).
Proof.
  intros Hs Hl Ht Hne Hdp Hget Hbefore.
  destruct (transportPosition_marker s t Hs Ht Hne) as (Hb & _).
  destruct (splitBranches_service s Hs Hl t Ht Hb)
    as (j & subs & Ej & Hj & Hsub & Hr).
  assert (Ej' : index_of "." (drop (S t) s) = Some (dp - S t)%nat).
  { apply index_of_first.
    - rewrite get_drop_add. now replace (S t + (dp - S t))%nat with dp by lia.
    - intros e He. rewrite get_drop_add. apply Hbefore. lia. }
  rewrite Ej' in Ej. injection Ej as <-.
  replace (S t + (dp - S t))%nat with dp in * by lia.
  eexists. split; [exact Hr|].
  split.
  - intros Hz. apply index_of_none in Hz. rewrite Hz in Hsub.
    destruct (last_index_of "." (take t s)); exact Hsub.
  - intros k Hk Hfirst. rewrite (index_of_first _ _ _ Hk Hfirst) in Hsub.
    rewrite !substring_take_drop.
    rewrite (take_all (String.length s - k) (drop k s))
      by (rewrite drop_length; lia).
    destruct (last_index_of "." (take t s)); exact Hsub.
Qed.

(** *** Which names are set *)

Lemma take_empty (d : nat) (s : string) :
  (d < String.length s)%nat -> (take d s = "" <-> d = 0%nat).
Proof.
  intros H. split; [|intros ->; apply take_0].
  intros E. apply (f_equal String.length) in E.
  rewrite take_length in E. simpl in E. lia.
Qed.

(** The last [c] of [u] is at its start, or there is none, exactly when
    no position behind the first holds [c]. *)
Lemma last_index_of_start (c : ascii) (u : string) :
  (last_index_of c u = None \/ last_index_of c u = Some 0%nat) <->
  (forall e, (0 < e < String.length u)%nat -> get e u <> Some c).
Proof.
  split.
  - intros [H|H] e He Hg.
    + apply last_index_of_none in H. apply get_count_pos in Hg. lia.
    + destruct (last_index_of_some _ _ _ H) as (_ & _ & Hz).
      replace e with (1 + (e - 1))%nat in Hg by lia.
      rewrite <- get_drop_add in Hg. apply get_count_pos in Hg. lia.
  - intros H. destruct (last_index_of c u) as [d|] eqn:E; [|now left].
    destruct (last_index_of_some _ _ _ E) as (Hd & Hg & _).
    destruct d as [|d]; [now right|]. now destruct (H (S d) ltac:(lia)).
Qed.

Lemma names_set (aName : string) :
  fits (aName ++ ".") ->
  let s := normalized aName in
  exists nameInfo,
    SplitFullDnsName aName = Returns nameInfo /\
    (transportPosition s = npos /\
     mServiceName nameInfo = "" /\ mInstanceName nameInfo = "" /\
     (mHostName nameInfo = "" <-> get 0 s = Some "."%char) \/
     transportPosition s <> npos /\
     mHostName nameInfo = "" /\ mServiceName nameInfo <> "" /\
     (mInstanceName nameInfo = "" <->
      forall e, (0 < e)%nat -> Z.of_nat e < transportPosition s ->
                get e s <> Some "."%char) /\
     (mInstanceName nameInfo <> "" ->
      exists e, (0 < e)%nat /\ Z.of_nat e < transportPosition s /\
                get e s = Some "."%char)).
Proof.
  intros Hf s.
  pose proof (normalized_fits aName Hf) as Hs.
  pose proof (normalized_ends aName) as Hl. apply ends_with_dot_last in Hl.
  fold s in Hs, Hl.
  destruct (transportPosition_cases s Hs) as [(Ht & _)|(t & Ht & Hb & _)].
  - destruct (splitBranches_host s Hs Hl Ht) as (i & Ei & Hr).
    eexists. split; [unfold SplitFullDnsName; fold s; now rewrite Hr|].
    left. split; [exact Ht|].
    match goal with
    | |- context [terminateDomain ?r] =>
        destruct (terminateDomain_others r) as (-> & -> & -> & _)
    end.
    cbn [mInstanceName mServiceName mHostName]. repeat split.
    + intros E. destruct (index_of_some _ _ _ Ei) as (Hi & _ & Hd).
      apply take_empty in E; [|exact Hi]. subst i.
      rewrite drop_0 in Hd. now rewrite Hd.
    + intros Hg. rewrite (index_of_first _ _ 0%nat Hg) in Ei by (intros; lia).
      injection Ei as <-. apply take_0.
  - assert (Hne : transportPosition s <> npos).
    { rewrite Ht. unfold fits, size, npos, modulus in *. lia. }
    destruct (splitBranches_service s Hs Hl t Ht Hb)
      as (j & subs & _ & Hj & _ & Hr).
    eexists. split; [unfold SplitFullDnsName; fold s; now rewrite Hr|].
    right. split; [exact Hne|].
    match goal with
    | |- context [terminateDomain ?r] =>
        destruct (terminateDomain_others r) as (-> & -> & -> & _)
    end.
    rewrite Ht.
    pose proof (last_index_of_start "." (take t s)) as Hstart.
    rewrite take_length in Hstart.
    assert (Hinner :
      (forall e, (0 < e < Nat.min t (String.length s))%nat ->
                 get e (take t s) <> Some "."%char) <->
      (forall e, (0 < e)%nat -> Z.of_nat e < Z.of_nat t ->
                 get e s <> Some "."%char)).
    { split; intros H e.
      - intros He1 He2. rewrite <- (get_take e t) by lia. apply H. lia.
      - intros He. rewrite get_take by lia. apply H; lia. }
    destruct (last_index_of "." (take t s)) as [d|] eqn:Ed;
      cbn [mInstanceName mServiceName mHostName].
    + destruct (last_index_of_some _ _ _ Ed) as (Hd & Hg & _).
      rewrite take_length in Hd.
      split; [reflexivity|]. split.
      { apply nonempty_of_length. rewrite take_length, drop_length. lia. }
      split.
      * rewrite <- Hinner, <- Hstart, take_empty by lia.
        split; [intros ->; now right | intros [H|H]; congruence].
      * intros Hi. exists d. rewrite get_take in Hg by lia.
        repeat split; [|lia|exact Hg].
        destruct d; [now rewrite take_0 in Hi | lia].
    + split; [reflexivity|]. split.
      { apply nonempty_of_length. rewrite take_length. lia. }
      split; [|intros H; now destruct H].
      rewrite <- Hinner, <- Hstart. split; auto.
Qed.

(** *** Names put together from their parts *)

Lemma no_marker (s : string) :
  fits s -> transportPosition s = npos ->
  forall pat j, pat = "._udp" \/ pat = "._tcp" -> ~ occurs_at pat s j.
Proof.
  intros Hs Ht pat j Hpat.
  destruct (transportPosition_cases s Hs) as [(_ & H1 & H2)|(t & Ht' & Hb & _)].
  - destruct Hpat as [-> | ->]; now apply last_occurrence_none.
  - rewrite Ht in Ht'. unfold fits, size, npos, modulus in *. lia.
Qed.

Lemma no_udp (s : string) :
  fits s -> rfind s "._udp" = npos -> forall j, ~ occurs_at "._udp" s j.
Proof.
  intros Hs Hr. unfold rfind in Hr.
  destruct (last_occurrence "._udp" s) as [i|] eqn:E.
  - apply last_occurrence_some in E as [E _]. apply occurs_at_bound in E.
    simpl in *. unfold fits, size, npos, modulus in *. lia.
  - now apply last_occurrence_none.
Qed.

Lemma count_dot_joined (subtypes : list string) :
  Forall (fun subtype => count "." subtype = 0%nat) subtypes ->
  count "." (joinSubtypes subtypes) = 0%nat.
Proof.
  induction 1 as [|x l Hx Hl IH]; [reflexivity|].
  cbn [joinSubtypes fold_right]. fold (joinSubtypes l).
  rewrite !count_app, Hx, IH. reflexivity.
Qed.

Section Built.

Variables front label marker mid domain : string.

Let name : string := front ++ label ++ marker ++ mid ++ "." ++ domain.
Let t : nat := String.length (front ++ label).

Hypothesis Hmarker :
  marker = "._udp" \/
  marker = "._tcp" /\
  forall j, ~ occurs_at "._udp" (front ++ label ++ "._tcp") j.
Hypothesis Hmid : count "." mid = 0%nat.
Hypothesis Hdomain :
  forall pat j, pat = "._udp" \/ pat = "._tcp" ->
                ~ occurs_at pat ("." ++ domain) j.
Hypothesis Hfits : fits name.

Lemma built_occurs : occurs_at marker name t.
Proof.
  exists (front ++ label), (mid ++ "." ++ domain). split; [|reflexivity].
  unfold name. now rewrite !app_assoc.
Qed.

(** No marker begins behind the transport position. *)
Lemma built_none_later (pat : string) (j : nat) :
  pat = "._udp" \/ pat = "._tcp" -> occurs_at pat name j -> (j <= t)%nat.
Proof.
  intros Hpat Hocc.
  destruct (Nat.le_gt_cases j t) as [H|H]; [exact H | exfalso].
  assert (Hname : exists tail,
            String.length tail = 4%nat /\ count "." tail = 0%nat /\
            name = (front ++ label ++ ".") ++ (tail ++ mid) ++ "." ++ domain).
  { destruct Hmarker as [E | [E _]]; [exists "_udp" | exists "_tcp"];
      (split; [reflexivity|]); (split; [reflexivity|]);
      unfold name; rewrite E, !app_assoc; reflexivity. }
  destruct Hname as (tail & Htl & Htail & Hname).
  assert (Hpat' : exists p, pat = String "." p)
    by (destruct Hpat as [-> | ->]; eauto).
  destruct Hpat' as [p Ep]. rewrite Ep, Hname in Hocc.
  apply occurs_at_behind in Hocc.
  - destruct Hocc as [_ Hocc]. rewrite <- Ep in Hocc.
    exact (Hdomain pat _ Hpat Hocc).
  - rewrite <- app_assoc, length_app. fold t. simpl. lia.
  - now rewrite count_app, Htail, Hmid.
Qed.

Lemma built_transportPosition : transportPosition name = Z.of_nat t.
Proof.
  rewrite (transportPosition_nat _ Hfits).
  pose proof built_occurs as Hocc.
  destruct Hmarker as [E | [E Hudp]]; rewrite E in Hocc.
  - rewrite (last_occurrence_intro _ _ _ Hocc); [reflexivity|].
    intros j. apply built_none_later. now left.
  - rewrite last_occurrence_absent.
    + rewrite (last_occurrence_intro _ _ _ Hocc); [reflexivity|].
      intros j. apply built_none_later. now right.
    + intros j Hj.
      pose proof (built_none_later _ _ (or_introl eq_refl) Hj) as Hle.
      apply (Hudp j).
      assert (En : name = (front ++ label ++ "._tcp") ++ mid ++ "." ++ domain)
        by (unfold name; rewrite E, !app_assoc; reflexivity).
      rewrite En in Hj. apply occurs_at_prefix in Hj; [exact Hj|].
      rewrite <- app_assoc, length_app. fold t. simpl. lia.
Qed.

End Built.

(** A label free of '.' in front of "._tcp" holds no "._udp". *)
Lemma no_udp_in_label (label : string) (j : nat) :
  count "." label = 0%nat -> ~ occurs_at "._udp" (label ++ "._tcp") j.
Proof.
  intros Hl Hocc.
  destruct (Nat.le_gt_cases (String.length label) j) as [H|H].
  - apply occurs_at_suffix in Hocc; [|exact H].
    pose proof (occurs_at_bound _ _ _ Hocc) as Hb. simpl in Hb.
    replace (j - String.length label)%nat with 0%nat in Hocc by lia.
    apply occurs_at_head in Hocc. discriminate.
  - apply occurs_at_head_char in Hocc. rewrite get_app_l in Hocc by lia.
    apply get_count_pos in Hocc. lia.
Qed.

Lemma SplitFullDnsName_of_raw (name : string) (raw : DnsNameInfo) :
  normalized name = name -> splitBranches name = Returns raw ->
  NameEndsWithDot (mDomain raw) = true ->
  SplitFullDnsName name = Returns raw.
Proof.
  intros Hn Hr Hd. unfold SplitFullDnsName. rewrite Hn, Hr. cbn [bind].
  unfold terminateDomain. now rewrite Hd.
Qed.

Lemma last_app_nonempty (a b : string) : b <> "" -> last (a ++ b) = last b.
Proof.
  intros Hb. induction a as [|c a IH]; [reflexivity|].
  simpl. rewrite IH. destruct (a ++ b) eqn:E; [|reflexivity].
  destruct a, b; try discriminate. contradiction.
Qed.

Lemma normalized_app (a domain : string) :
  domain <> "" -> normalized (a ++ domain) = a ++ normalized domain.
Proof.
  intros Hd. unfold normalized, NameEndsWithDot.
  rewrite (last_app_nonempty a domain Hd).
  assert (empty (a ++ domain) = false) as -> by (destruct a, domain; auto;
    contradiction).
  assert (empty domain = false) as -> by (destruct domain; auto;
    contradiction).
  cbn [negb andb].
  destruct (last domain) as [c|]; [|now rewrite app_assoc].
  destruct (Ascii.eqb c "."); [reflexivity | now rewrite app_assoc].
Qed.

(** A host label, a '.', and what follows it. *)
Lemma built_host (host rest : string) :
  count "." host = 0%nat ->
  rest = "" \/ last rest = Some "."%char ->
  (forall pat j, pat = "._udp" \/ pat = "._tcp" ->
                 ~ occurs_at pat ("." ++ rest) j) ->
  fits (host ++ "." ++ rest) ->
  normalized (host ++ "." ++ rest) = host ++ "." ++ rest /\
  splitBranches (host ++ "." ++ rest) =
  Returns {| mInstanceName := ""; mServiceName := ""; mHostName := host;
             mSubtypes := []; mDomain := rest |}.
Proof.
  intros Hh Hrest Hno Hfits.
  set (name := host ++ "." ++ rest) in *.
  assert (Hl : last name = Some "."%char).
  { unfold name. destruct Hrest as [-> | H].
    - apply last_app_char.
    - rewrite <- app_assoc, last_app_nonempty; [exact H|].
      intros E. rewrite E in H. discriminate. }
  split; [now apply normalized_dotted, ends_with_dot_last|].
  assert (Hnone : forall pat j, pat = "._udp" \/ pat = "._tcp" ->
                    ~ occurs_at pat name j).
  { intros pat j Hpat Hocc.
    assert (Hp : exists p, pat = String "." p)
      by (destruct Hpat as [-> | ->]; eauto).
    destruct Hp as [p Ep].
    destruct (Nat.le_gt_cases (String.length host) j) as [H|H].
    - apply occurs_at_suffix in Hocc; [|exact H].
      exact (Hno pat _ Hpat Hocc).
    - rewrite Ep in Hocc. apply occurs_at_head_char in Hocc.
      unfold name in Hocc. rewrite get_app_l in Hocc by lia.
      apply get_count_pos in Hocc. lia. }
  assert (Ht : transportPosition name = npos).
  { rewrite (transportPosition_nat _ Hfits).
    rewrite !last_occurrence_absent; [reflexivity | |];
      intros j; apply Hnone; auto. }
  destruct (splitBranches_host name Hfits Hl Ht) as (i & Ei & ->).
  unfold name in Ei.
  change (host ++ "." ++ rest) with (host ++ String "." rest) in Ei.
  rewrite (index_of_intro _ _ _ Hh) in Ei. injection Ei as <-.
  unfold name. rewrite take_app_length.
  rewrite <- app_assoc, (drop_app_exact _ (host ++ "."))
    by (rewrite length_app; simpl; lia).
  reflexivity.
Qed.

(** What the branches make of a name put together from a front (empty,
    or an instance name and its '.'), a label, a marker, subtypes and a
    domain. *)
Lemma built_split (front label marker : string) (subtypes : list string)
    (domain : string) :
  let name :=
    front ++ label ++ marker ++ joinSubtypes subtypes ++ "." ++ domain in
  marker = "._udp" \/
  marker = "._tcp" /\
  (forall j, ~ occurs_at "._udp" (front ++ label ++ "._tcp") j) ->
  count "," (front ++ label) = 0%nat ->
  Forall (fun subtype => count "," subtype = 0%nat) subtypes ->
  Forall (fun subtype => count "." subtype = 0%nat) subtypes ->
  Z.of_nat (List.length subtypes) <= Int.max ->
  NameEndsWithDot domain = true ->
  count "," domain = 0%nat ->
  (forall pat j, pat = "._udp" \/ pat = "._tcp" ->
                 ~ occurs_at pat ("." ++ domain) j) ->
  fits name ->
  normalized name = name /\
  splitBranches name =
  Returns
    match last_index_of "." (front ++ label) with
    | None =>
        {| mInstanceName := ""; mServiceName := front ++ label ++ marker;
           mHostName := ""; mSubtypes := subtypes; mDomain := domain |}
    | Some d =>
        {| mInstanceName := take d (front ++ label);
           mServiceName := drop (S d) (front ++ label) ++ marker;
           mHostName := ""; mSubtypes := subtypes; mDomain := domain |}
    end.
Proof.
  intros name Hmarker Hcomma Hsubc Hsubd Hnum Hdot Hdomc Hdomain Hfits.
  set (mid := joinSubtypes subtypes) in *.
  set (t := String.length (front ++ label)).
  assert (Et : t = (String.length front + String.length label)%nat)
    by apply length_app.
  assert (Hmid : count "." mid = 0%nat) by now apply count_dot_joined.
  assert (Hmlen : String.length marker = 5%nat)
    by (destruct Hmarker as [-> | [-> _]]; reflexivity).
  assert (Hmc : count "," marker = 0%nat)
    by (destruct Hmarker as [-> | [-> _]]; reflexivity).
  assert (N1 : name = (front ++ label) ++ marker ++ mid ++ "." ++ domain)
    by (unfold name; now rewrite !app_assoc).
  assert (N2 : name = (front ++ label ++ marker) ++ mid ++ "." ++ domain)
    by (unfold name; now rewrite !app_assoc).
  assert (N4 : name = (front ++ label ++ marker ++ mid ++ ".") ++ domain)
    by (unfold name; now rewrite !app_assoc).
  assert (Hl : last name = Some "."%char).
  { apply ends_with_dot_iff in Hdot as [p ->].
    rewrite N4, <- app_assoc. apply last_app_char. }
  assert (Hnorm : normalized name = name)
    by now apply normalized_dotted, ends_with_dot_last.
  split; [exact Hnorm|].
  pose proof (built_transportPosition front label marker mid domain Hmarker
                Hmid Hdomain Hfits) as Ht. fold name t in Ht.
  assert (Hlen : String.length name =
                 (t + 5 + String.length mid + 1 + String.length domain)%nat).
  { rewrite N1, !length_app, Hmlen. simpl. lia. }
  destruct (splitBranches_service name Hfits Hl t Ht ltac:(lia))
    as (j & subs & Ej & Hj & Hsub & Hr).
  (* the first dot after the marker *)
  assert (Ej' : j = (4 + String.length mid)%nat).
  { assert (Hd : exists tail, marker = String "." tail /\
                   index_of "." tail = None /\ String.length tail = 4%nat)
      by (destruct Hmarker as [-> | [-> _]]; eexists; repeat split).
    destruct Hd as (tail & Em & Htail & Htl).
    rewrite N1, Em, drop_app_ge in Ej by (fold t; lia). fold t in Ej.
    replace (S t - t)%nat with 1%nat in Ej by lia.
    change (drop 1 (String "." tail ++ mid ++ "." ++ domain))
      with (tail ++ mid ++ String "." domain) in Ej.
    rewrite (index_of_app_r _ _ _ Htail), (index_of_intro _ _ _ Hmid), Htl
      in Ej.
    cbn [option_map] in Ej. now injection Ej as <-. }
  subst j.
  assert (Hdom : drop (S (S t + (4 + String.length mid))) name = domain).
  { rewrite N4. apply drop_app_exact. rewrite !length_app. fold t.
    simpl. lia. }
  rewrite Hdom in Hr.
  (* the subtypes *)
  assert (Esubs : subs = subtypes).
  { destruct subtypes as [|x l].
    - assert (Hz : count "," name = 0%nat).
      { rewrite N1, (count_app _ (front ++ label)), Hcomma, !count_app,
          Hmc, Hdomc. reflexivity. }
      apply index_of_none in Hz. now rewrite Hz in Hsub.
    - assert (Ek : index_of "," name = Some (t + 5)%nat).
      { rewrite N2.
        change mid with (String "," (x ++ joinSubtypes l)).
        change (String "," (x ++ joinSubtypes l) ++ "." ++ domain)
          with (String "," ((x ++ joinSubtypes l) ++ "." ++ domain)).
        rewrite index_of_intro.
        - f_equal. rewrite <- !app_assoc, length_app. fold t. lia.
        - rewrite <- app_assoc, (count_app _ (front ++ label)), Hcomma, Hmc.
          reflexivity. }
      rewrite Ek in Hsub.
      destruct (Nat.leb_spec (t + 5) (S t + (4 + String.length mid)));
        [|lia].
      assert (Efrag : take (S t + (4 + String.length mid) - (t + 5))
                        (drop (t + 5) name) = mid).
      { rewrite N2, drop_app_exact
          by (rewrite <- app_assoc, length_app; fold t; lia).
        apply take_app_exact. lia. }
      rewrite Efrag in Hsub. unfold mid in Hsub.
      rewrite SplitSubtypes_joinSubtypes in Hsub; try assumption.
      + now injection Hsub.
      + apply (fits_shorter _ name); [|exact Hfits].
        fold mid. lia. }
  subst subs.
  (* the names *)
  assert (Etake : take t name = front ++ label)
    by (rewrite N1; now apply take_app_exact).
  rewrite Etake in Hr. rewrite Hr. f_equal.
  destruct (last_index_of "." (front ++ label)) as [d|] eqn:Ed.
  - destruct (last_index_of_some _ _ _ Ed) as (Hd & _ & _). fold t in Hd.
    f_equal.
    + rewrite N1. apply take_app. fold t. lia.
    + rewrite N1, drop_app by (fold t; lia).
      rewrite <- app_assoc. apply take_app_exact.
      rewrite length_app, drop_length. fold t. lia.
  - f_equal. rewrite N2. apply take_app_exact.
    rewrite <- app_assoc, length_app. fold t. lia.
Qed.

End MoreSplitFacts.

Import MoreSplitFacts.

(** X4.  A name that holds a transport marker is read as
    front, label, marker, mid, '.', rest: the service name is the label
    (free of '.') with the marker; front is empty, or the instance name
    and its '.'; the domain is rest, or "." when rest is empty; and mid,
    whatever stands between the marker and the next '.', goes to no
    name. *)
Theorem service_name_parts (aName : string) (t : nat) :
  fits (aName ++ ".") ->
  let fullName := normalized aName in
  transportPosition fullName = Z.of_nat t ->
  transportPosition fullName <> npos ->
  exists nameInfo front label marker mid rest,
    SplitFullDnsName aName = Returns nameInfo /\
    fullName = front ++ label ++ marker ++ mid ++ "." ++ rest /\
    String.length (front ++ label) = t /\
    (marker = "._udp" \/ marker = "._tcp") /\
    Str.count "." label = 0%nat /\ Str.count "." mid = 0%nat /\
    (front = "" /\ mInstanceName nameInfo = "" \/
     front = mInstanceName nameInfo ++ ".") /\
    mServiceName nameInfo = label ++ marker /\
    mDomain nameInfo = (if empty rest then "." else rest) /\
    mHostName nameInfo = "".
Proof.
  intros Hf fullName Ht Hne.
  pose proof (normalized_fits aName Hf) as Hs.
  pose proof (normalized_ends aName) as Hl. apply ends_with_dot_last in Hl.
  fold fullName in Hs, Hl.
  destruct (splitBranches_parts fullName t Hs Hl Ht Hne)
    as (raw & front & label & marker & mid & rest & Hr & Hfull & Hlen & Hm &
        Hlab & Hmid & Hfront & Hsvc & Hdom & Hrest & Hhost).
  exists (terminateDomain raw), front, label, marker, mid, rest.
  destruct (terminateDomain_others raw) as (Ei & Es & Eh & _).
  rewrite Ei, Es, Eh, terminateDomain_domain, Hdom.
  unfold SplitFullDnsName. fold fullName. rewrite Hr.
  repeat split; try assumption.
  destruct Hrest as [-> | E]; [reflexivity|].
  rewrite (proj2 (ends_with_dot_last _) E).
  destruct rest; [discriminate | reflexivity].
Qed.

Lemma service_name_parts_witness :
  fits ("My.Printer._ipp._tcpx.local" ++ ".") /\
  exists nameInfo,
    SplitFullDnsName "My.Printer._ipp._tcpx.local" = Returns nameInfo /\
    mInstanceName nameInfo = "My.Printer" /\
    mServiceName nameInfo = "_ipp._tcp" /\
    mDomain nameInfo = "local.".
Proof.
  assert (H : fits ("My.Printer._ipp._tcpx.local" ++ "."))
    by (unfold fits, size, npos, modulus; simpl; lia).
  split; [exact H|].
  destruct (service_name_parts "My.Printer._ipp._tcpx.local" 15%nat H)
    as (nameInfo & _ & _ & _ & _ & _ & _ & _ & _ & _ & _ & _ & _ & _ & _ & _);
    [reflexivity | discriminate |].
  exists {| mInstanceName := "My.Printer"; mServiceName := "_ipp._tcp";
            mHostName := ""; mSubtypes := []; mDomain := "local." |}.
  repeat split.
Defined.

(** X5.  The subtypes of a name with a transport marker are what
    [SplitSubtypes] makes of the text from the first ',' of the name up to
    the first '.' after the marker; when the first ',' stands behind that
    '.', of the text from the ',' to the end of the name; and there are
    none when the name holds no ','. *)
Theorem subtypes_fragment (aName : string) (t domainPos : nat) :
  fits (aName ++ ".") ->
  let fullName := normalized aName in
  transportPosition fullName = Z.of_nat t ->
  transportPosition fullName <> npos ->
  (t < domainPos)%nat ->
  get domainPos fullName = Some "."%char ->
  (forall e, (t < e < domainPos)%nat -> get e fullName <> Some "."%char) ->
  exists nameInfo,
    SplitFullDnsName aName = Returns nameInfo /\
    (Str.count "," fullName = 0%nat -> mSubtypes nameInfo = []) /\
    (forall commaPos,
       get commaPos fullName = Some ","%char ->
       (forall e, (e < commaPos)%nat -> get e fullName <> Some ","%char) ->
       SplitSubtypes
         (if (commaPos <=? domainPos)%nat
          then substring commaPos (domainPos - commaPos) fullName
          else substring commaPos (String.length fullName - commaPos)
                 fullName) [] =
       Returns (mSubtypes nameInfo)).
Proof.
  intros Hf fullName Ht Hne Hdp Hget Hbefore.
  pose proof (normalized_fits aName Hf) as Hs.
  pose proof (normalized_ends aName) as Hl. apply ends_with_dot_last in Hl.
  fold fullName in Hs, Hl.
  destruct (splitBranches_subtypes fullName t domainPos Hs Hl Ht Hne Hdp Hget
              Hbefore) as (raw & Hr & Hnone & Hsome).
  exists (terminateDomain raw).
  destruct (terminateDomain_others raw) as (_ & _ & _ & Eu). rewrite Eu.
  unfold SplitFullDnsName. fold fullName. rewrite Hr. auto.
Qed.

Lemma subtypes_fragment_witness :
  fits ("_s._udp.a,b.c" ++ ".") /\
  exists nameInfo,
    SplitFullDnsName "_s._udp.a,b.c" = Returns nameInfo /\
    SplitSubtypes ",b.c." [] = Returns (mSubtypes nameInfo).
Proof.
  assert (H : fits ("_s._udp.a,b.c" ++ "."))
    by (unfold fits, size, npos, modulus; simpl; lia).
  split; [exact H|].
  destruct (subtypes_fragment "_s._udp.a,b.c" 2%nat 7%nat H)
    as (nameInfo & Hn & _ & Hc).
  - reflexivity.
  - discriminate.
  - lia.
  - reflexivity.
  - intros e He.
    assert (e = 3 \/ e = 4 \/ e = 5 \/ e = 6)%nat as [-> | [-> | [-> | ->]]]
      by lia; discriminate.
  - exists nameInfo. split; [exact Hn|].
    apply (Hc 9%nat); [reflexivity|].
    intros e He. do 9 (destruct e as [|e]; [discriminate|]). lia.
Defined.

(** X6.  A service instance name put together as
    instance '.' label marker subtypes '.' domain, the marker "._udp" or
    "._tcp" and each subtype behind a ',', splits into exactly these parts
    under these conditions: the instance name holds no ','; the label
    holds no '.' and no ','; no subtype holds a ',' or a '.', and there
    are at most 2147483647 of them; the domain ends with '.', holds no
    ',', and the text '.' domain holds neither "._udp" nor "._tcp" (the
    domain neither holds a marker nor begins with "_udp" or "_tcp"); for
    the marker "._tcp", the text instance '.' label "._tcp" holds no
    "._udp"; and the name is a string the implementation can hold. *)
Theorem split_built_instance
    (instance label marker : string) (subtypes : list string)
    (domain : string) :
  let name :=
    instance ++ "." ++ label ++ marker ++ joinSubtypes subtypes ++ "." ++
    domain in
  marker = "._udp" \/
  marker = "._tcp" /\
  rfind (instance ++ "." ++ label ++ "._tcp") "._udp" = npos ->
  Str.count "," instance = 0%nat ->
  Str.count "." label = 0%nat -> Str.count "," label = 0%nat ->
  Forall (fun subtype => Str.count "," subtype = 0%nat) subtypes ->
  Forall (fun subtype => Str.count "." subtype = 0%nat) subtypes ->
  Z.of_nat (List.length subtypes) <= Int.max ->
  NameEndsWithDot domain = true -> Str.count "," domain = 0%nat ->
  transportPosition ("." ++ domain) = npos ->
  fits name ->
  SplitFullDnsName name =
  Returns {| mInstanceName := instance; mServiceName := label ++ marker;
             mHostName := ""; mSubtypes := subtypes; mDomain := domain |}.
Proof.
  intros name Hmarker Hic Hld Hlc Hsc Hsd Hnum Hdot Hdc Hdm Hfits.
  assert (En : name =
               (instance ++ ".") ++ label ++ marker ++
               joinSubtypes subtypes ++ "." ++ domain)
    by (unfold name; now rewrite app_assoc).
  assert (Hlen : String.length name =
                 (String.length instance + 1 + String.length label +
                  String.length marker +
                  String.length (joinSubtypes subtypes) + 1 +
                  String.length domain)%nat).
  { unfold name. rewrite !length_app. simpl. lia. }
  assert (Hmlen : String.length marker = 5%nat)
    by (destruct Hmarker as [-> | [-> _]]; reflexivity).
  destruct (built_split (instance ++ ".") label marker subtypes domain)
    as [Hnorm Hr]; try assumption.
  - destruct Hmarker as [E | [E Hr]]; [now left | right].
    split; [exact E|]. rewrite app_assoc. apply no_udp; [|exact Hr].
    apply (fits_shorter _ name); [|exact Hfits].
    rewrite Hlen, !length_app, Hmlen. simpl. lia.
  - rewrite !count_app, Hic, Hlc. reflexivity.
  - apply no_marker; [|exact Hdm].
    apply (fits_shorter _ name); [|exact Hfits]. rewrite Hlen. simpl. lia.
  - now rewrite <- En.
  - rewrite <- En in Hnorm, Hr.
    assert (Elast : last_index_of "." ((instance ++ ".") ++ label) =
                    Some (String.length instance))
      by (rewrite app_assoc; apply last_index_of_app; exact Hld).
    assert (Etake : take (String.length instance) ((instance ++ ".") ++ label)
                    = instance)
      by (rewrite app_assoc; apply take_app_length).
    assert (Edrop : drop (S (String.length instance))
                      ((instance ++ ".") ++ label) = label)
      by (apply drop_app_exact; rewrite length_app; simpl; lia).
    rewrite Elast, Etake, Edrop in Hr.
    exact (SplitFullDnsName_of_raw _ _ Hnorm Hr Hdot).
Qed.

Lemma split_built_instance_witness :
  SplitFullDnsName
    ("My.Printer" ++ "." ++ "_ipp" ++ "._tcp" ++
     joinSubtypes ["_universal"; "_x"] ++ "." ++ "local.") =
  Returns {| mInstanceName := "My.Printer"; mServiceName := "_ipp._tcp";
             mHostName := ""; mSubtypes := ["_universal"; "_x"];
             mDomain := "local." |}.
Proof.
  apply (split_built_instance "My.Printer" "_ipp" "._tcp"
           ["_universal"; "_x"] "local.").
  - right. split; reflexivity.
  - reflexivity.
  - reflexivity.
  - reflexivity.
  - repeat constructor.
  - repeat constructor.
  - unfold Int.max. simpl. lia.
  - reflexivity.
  - reflexivity.
  - reflexivity.
  - unfold fits, size, npos, modulus. simpl. lia.
Defined.

(** X7.  A service name put together as label marker subtypes '.' domain,
    the marker "._udp" or "._tcp" and each subtype behind a ',', splits
    into exactly these parts and has no instance name, under these
    conditions: the label holds no '.' and no ','; no subtype holds a ','
    or a '.', and there are at most 2147483647 of them; the domain ends
    with '.', holds no ',', and the text '.' domain holds neither "._udp"
    nor "._tcp" (the domain neither holds a marker nor begins with "_udp"
    or "_tcp"); and the name is a string the implementation can hold. *)
Theorem split_built_service
    (label marker : string) (subtypes : list string) (domain : string) :
  let name := label ++ marker ++ joinSubtypes subtypes ++ "." ++ domain in
  marker = "._udp" \/ marker = "._tcp" ->
  Str.count "." label = 0%nat -> Str.count "," label = 0%nat ->
  Forall (fun subtype => Str.count "," subtype = 0%nat) subtypes ->
  Forall (fun subtype => Str.count "." subtype = 0%nat) subtypes ->
  Z.of_nat (List.length subtypes) <= Int.max ->
  NameEndsWithDot domain = true -> Str.count "," domain = 0%nat ->
  transportPosition ("." ++ domain) = npos ->
  fits name ->
  SplitFullDnsName name =
  Returns {| mInstanceName := ""; mServiceName := label ++ marker;
             mHostName := ""; mSubtypes := subtypes; mDomain := domain |}.
Proof.
  intros name Hmarker Hld Hlc Hsc Hsd Hnum Hdot Hdc Hdm Hfits.
  destruct (built_split "" label marker subtypes domain)
    as [Hnorm Hr]; try assumption.
  - destruct Hmarker as [E | E]; [now left | right].
    split; [exact E|]. intros j. now apply no_udp_in_label.
  - apply no_marker; [|exact Hdm].
    apply (fits_shorter _ name); [|exact Hfits].
    unfold name. rewrite !length_app. simpl. lia.
  - change ("" ++ label) with label in Hr.
    rewrite (proj2 (last_index_of_none "." label) Hld) in Hr.
    exact (SplitFullDnsName_of_raw _ _ Hnorm Hr Hdot).
Qed.

Lemma split_built_service_witness :
  SplitFullDnsName
    ("_matterc" ++ "._udp" ++ joinSubtypes ["_S3"; "_L840"] ++ "." ++
     "default.service.arpa.") =
  Returns {| mInstanceName := ""; mServiceName := "_matterc._udp";
             mHostName := ""; mSubtypes := ["_S3"; "_L840"];
             mDomain := "default.service.arpa." |}.
Proof.
  apply (split_built_service "_matterc" "._udp" ["_S3"; "_L840"]
           "default.service.arpa.").
  - now left.
  - reflexivity.
  - reflexivity.
  - repeat constructor.
  - repeat constructor.
  - unfold Int.max. simpl. lia.
  - reflexivity.
  - reflexivity.
  - reflexivity.
  - unfold fits, size, npos, modulus. simpl. lia.
Defined.

(** X8.  A host name put together as host '.' domain splits into the host
    and the normalized domain (the domain, with a '.' appended when it
    does not end with one; "." for no domain), without subtypes whatever
    commas it holds, under these conditions: the host holds no '.'; the
    text '.' followed by the normalized domain holds neither "._udp" nor
    "._tcp" (the domain neither holds a marker nor begins with "_udp" or
    "_tcp"); and the name with a '.' appended is a string the
    implementation can hold. *)
Theorem split_built_host (host domain : string) :
  Str.count "." host = 0%nat ->
  transportPosition ("." ++ normalized domain) = npos ->
  fits (host ++ "." ++ domain ++ ".") ->
  SplitFullDnsName (host ++ "." ++ domain) =
  Returns {| mInstanceName := ""; mServiceName := ""; mHostName := host;
             mSubtypes := []; mDomain := normalized domain |}.
Proof.
  intros Hh Hdm Hfits.
  assert (Hlen : String.length (host ++ "." ++ domain ++ ".") =
                 (String.length host + 1 + String.length domain + 1)%nat)
    by (rewrite !length_app; simpl; lia).
  destruct domain as [|c domain].
  - (* no domain: the name ends with the host's '.' *)
    destruct (built_host host "") as [Hnorm Hr]; auto.
    + intros pat j Hpat Hocc. apply occurs_at_bound in Hocc.
      destruct Hpat as [-> | ->]; simpl in Hocc; lia.
    + apply (fits_shorter _ (host ++ "." ++ "" ++ ".")); [|exact Hfits].
      rewrite !length_app. simpl. lia.
    + unfold SplitFullDnsName. rewrite Hnorm, Hr. reflexivity.
  - set (d := String c domain) in *.
    assert (Hd : d <> "") by discriminate.
    pose proof (normalized_ends d) as He.
    assert (Hnl : (String.length (normalized d) <= String.length d + 1)%nat).
    { unfold normalized. destruct (NameEndsWithDot d); simpl;
        rewrite ?length_app; simpl; lia. }
    destruct (built_host host (normalized d)) as [Hnorm Hr]; auto.
    + right. now apply ends_with_dot_last.
    + apply no_marker; [|exact Hdm].
      apply (fits_shorter _ (host ++ "." ++ d ++ ".")); [|exact Hfits].
      rewrite Hlen.
      change (String.length ("." ++ normalized d))
        with (S (String.length (normalized d))). lia.
    + apply (fits_shorter _ (host ++ "." ++ d ++ ".")); [|exact Hfits].
      rewrite Hlen, length_app.
      change (String.length ("." ++ normalized d))
        with (S (String.length (normalized d))). lia.
    + unfold SplitFullDnsName.
      replace (normalized (host ++ "." ++ d))
        with (host ++ "." ++ normalized d)
        by (rewrite <- !app_assoc; symmetry; now apply normalized_app).
      rewrite Hr. cbn [bind]. unfold terminateDomain. cbn [mDomain].
      now rewrite He.
Qed.

Lemma split_built_host_witness :
  SplitFullDnsName ("my,host" ++ "." ++ "example.com") =
  Returns {| mInstanceName := ""; mServiceName := ""; mHostName := "my,host";
             mSubtypes := []; mDomain := "example.com." |}.
Proof.
  apply (split_built_host "my,host" "example.com").
  - reflexivity.
  - reflexivity.
  - unfold fits, size, npos, modulus. simpl. lia.
Defined.

(** X9.  Which extractor accepts a name, [IsHost], [IsService] and
    [IsServiceInstance] being as the spec describes them: the host one,
    when the normalized name holds no transport marker and does not begin
    with '.'; the service one, when it holds a marker with no '.' before
    it other than a leading one; the service instance one, when such a
    '.' stands before the marker. *)
Theorem extractors_accept (aFullName : string) :
  fits (aFullName ++ ".") ->
  let fullName := normalized aFullName in
  (forall aHostName aDomain,
     (exists outputs,
        SplitFullHostName aFullName aHostName aDomain =
        Returns (OTBR_ERROR_NONE, outputs)) <->
     transportPosition fullName = npos /\
     get 0 fullName <> Some "."%char) /\
  (forall aType aDomain,
     (exists outputs,
        SplitFullServiceName aFullName aType aDomain =
        Returns (OTBR_ERROR_NONE, outputs)) <->
     transportPosition fullName <> npos /\
     forall e, (0 < e)%nat -> Z.of_nat e < transportPosition fullName ->
               get e fullName <> Some "."%char) /\
  (forall aInstanceName aType aSubtypes aDomain,
     (exists outputs,
        SplitFullServiceInstanceName aFullName aInstanceName aType aSubtypes
          aDomain = Returns (OTBR_ERROR_NONE, outputs)) <->
     transportPosition fullName <> npos /\
     exists e, (0 < e)%nat /\ Z.of_nat e < transportPosition fullName /\
               get e fullName = Some "."%char).
Proof.
  intros Hf fullName.
  destruct (names_set aFullName Hf) as (nameInfo & Hn & Hcases).
  fold fullName in Hcases.
  assert (Hempty : forall x : string, empty x = true <-> x = "")
    by (intros []; simpl; split; congruence).
  assert (Hnonempty : forall x : string, empty x = false <-> x <> "")
    by (intros []; simpl; split; congruence).
  unfold SplitFullHostName, SplitFullServiceName, SplitFullServiceInstanceName.
  rewrite Hn. cbn [bind].
  unfold IsHost, IsService, IsServiceInstance.
  destruct Hcases as [(Ht & Hs & Hi & Hh)|(Ht & Hh & Hs & Hi & Hex)].
  - (* no marker *)
    rewrite Hs, Hi. cbn [empty negb andb]. split; [|split]; intros.
    + destruct (empty (mHostName nameInfo)) eqn:E; cbn [negb].
      * apply Hempty in E. pose proof (proj1 Hh E) as Hdot.
        split; [intros [? [=]] | intros [_ H]; contradiction].
      * apply Hnonempty in E.
        split; [intros _; split; [exact Ht|] | eauto].
        intros Hdot. now apply (proj2 Hh) in Hdot.
    + split; [intros [? [=]] | intros [H _]; contradiction].
    + split; [intros [? [=]] | intros [H _]; contradiction].
  - (* a marker *)
    rewrite Hh. apply Hnonempty in Hs. rewrite Hs.
    cbn [empty negb andb]. split; [|split]; intros.
    + split; [intros [? [=]] | intros [H _]; contradiction].
    + destruct (empty (mInstanceName nameInfo)) eqn:E; cbn [negb].
      * apply Hempty in E. pose proof (proj1 Hi E) as Hall.
        split; [auto | eauto].
      * apply Hnonempty in E.
        split; [intros [? [=]] | intros [_ H]]. now apply (proj2 Hi) in H.
    + destruct (empty (mInstanceName nameInfo)) eqn:E; cbn [negb].
      * apply Hempty in E. pose proof (proj1 Hi E) as Hall.
        split; [intros [? [=]] | intros [_ (e & H1 & H2 & H3)]].
        now destruct (Hall e H1 H2).
      * apply Hnonempty in E. split; [auto | eauto].
Qed.

Lemma extractors_accept_witness :
  fits (".local" ++ ".") /\
  (exists outputs,
     SplitFullHostName "host.local" "h" "d" =
     Returns (OTBR_ERROR_NONE, outputs)) /\
  ~ (exists outputs,
       SplitFullHostName ".local" "h" "d" =
       Returns (OTBR_ERROR_NONE, outputs)).
Proof.
  assert (H1 : fits (".local" ++ "."))
    by (unfold fits, size, npos, modulus; simpl; lia).
  assert (H2 : fits ("host.local" ++ "."))
    by (unfold fits, size, npos, modulus; simpl; lia).
  split; [exact H1|]. split.
  - apply (proj1 (extractors_accept "host.local" H2) "h" "d").
    split; [reflexivity | discriminate].
  - intros H.
    apply (proj1 (extractors_accept ".local" H1) "h" "d") in H.
    destruct H as [_ H]. now apply H.
Defined.

(** X10.  [NameEndsWithDot] holds of the names that are some text and a
    final '.', and of no other; so not of the empty name. *)
Theorem NameEndsWithDot_final_dot (aName : string) :
  NameEndsWithDot aName = true <-> exists front, aName = front ++ ".".
Proof.
  split.
  - intros H. apply ends_with_dot_last in H. now apply last_some.
  - intros [front ->]. apply ends_with_dot_last, last_app_char.
Qed.

(** X11.  Whatever the name, the domain is what stands behind one of
    its dots: the normalized name is some text, a '.', and the domain;
    only when nothing stands behind that '.' is the domain ".". *)
Theorem domain_is_tail (aName : string) :
  fits (aName ++ ".") ->
  exists nameInfo front rest,
    SplitFullDnsName aName = Returns nameInfo /\
    normalized aName = front ++ "." ++ rest /\
    mDomain nameInfo = (if empty rest then "." else rest).
Proof.
  intros Hf.
  pose proof (normalized_fits aName Hf) as Hs.
  pose proof (normalized_ends aName) as Hl. apply ends_with_dot_last in Hl.
  set (fullName := normalized aName) in *.
  destruct (transportPosition_cases fullName Hs)
    as [(Ht & _)|(t & Ht & Hb & _)].
  - destruct (splitBranches_host fullName Hs Hl Ht) as (i & Ei & Hr).
    destruct (index_of_some _ _ _ Ei) as (_ & _ & Hd).
    eexists. exists (take i fullName), (drop (S i) fullName).
    split; [unfold SplitFullDnsName; fold fullName; now rewrite Hr|].
    split.
    + rewrite <- (take_drop i fullName) at 1. now rewrite Hd.
    + rewrite terminateDomain_domain. cbn [mDomain].
      now apply domain_of_rest.
  - assert (Hne : transportPosition fullName <> npos).
    { rewrite Ht. unfold fits, size, npos, modulus in *. lia. }
    destruct (splitBranches_parts fullName t Hs Hl Ht Hne)
      as (raw & front & label & marker & mid & rest & Hr & Hfull & _ & _ &
          _ & _ & _ & _ & Hdom & Hrest & _).
    exists (terminateDomain raw), (front ++ label ++ marker ++ mid), rest.
    split; [unfold SplitFullDnsName; fold fullName; now rewrite Hr|].
    split; [rewrite !app_assoc; exact Hfull|].
    rewrite terminateDomain_domain, Hdom.
    destruct Hrest as [-> | E]; [reflexivity|].
    rewrite (proj2 (ends_with_dot_last _) E).
    destruct rest; [discriminate | reflexivity].
Qed.

Lemma domain_is_tail_witness :
  fits ("host" ++ ".") /\
  exists nameInfo front rest,
    SplitFullDnsName "host" = Returns nameInfo /\
    normalized "host" = front ++ "." ++ rest /\
    mDomain nameInfo = (if empty rest then "." else rest).
Proof.
  assert (H : fits ("host" ++ "."))
    by (unfold fits, size, npos, modulus; simpl; lia).
  split; [exact H | exact (domain_is_tail "host" H)].
Defined.
